(** * agente_estudos: the document question-answering script [app.py]

    A shallow embedding of [app.py] and the properties of its collection
    loop ([processar_documentos]), of the cached model loader
    ([carregar_modelo_qa]) and of the top-level script.

    - Python floats are IEEE binary64 numbers: Rocq's primitive [float],
      compared with [<?], [<=?] and [=?] as Python compares them.
    - Everything the script does to the outside (Streamlit widgets and
      messages, PyMuPDF, PIL, the transformers pipeline) is threaded through
      a state-and-exception monad [M]: each external call is an oracle on an
      abstract world that either returns or raises, and each call leaves an
      [Evento] in a log, so that "was never called" is a statement on the log.
    - The list [respostas_encontradas] is a mutable object: it lives in the
      state, and what was appended to it stays appended when an exception
      unwinds to the [except] clause. *)

From Stdlib Require Import List String Ascii Bool Arith ZArith Lia.
From Stdlib Require Import Floats Sorted Permutation.
Import ListNotations.

Set Warnings "-inexact-float".
Local Open Scope string_scope.
Local Open Scope list_scope.

(** ** Floats as Python compares them *)

Module PyFloat.

(** [x > y] and [x >= y] on Python floats. *)
Definition gtb (x y : float) : bool := (y <? x)%float.


End PyFloat.

(** ** Strings: [str.lower] and [str.endswith] *)

Module PyStr.

(** A file name is the sequence of its UTF-8 bytes.  [str.lower] is taken
    on the letters A-Z; every other byte is kept.  The suffixes the script
    tests are ASCII, and no character outside ASCII lowercases to one of
    their letters or to a dot, so the suffix tests below agree with
    Python's on every file name. *)
Definition lower_ascii (c : ascii) : ascii :=
  let n := nat_of_ascii c in
  if (65 <=? n)%nat && (n <=? 90)%nat then ascii_of_nat (n + 32) else c.

Fixpoint lower (s : string) : string :=
  match s with
  | EmptyString => EmptyString
  | String c s' => String (lower_ascii c) (lower s')
  end.

(** [s.endswith(suf)]: some tail of [s] is [suf]. *)
Fixpoint endswith (s suf : string) : bool :=
  (s =? suf) ||
  match s with
  | EmptyString => false
  | String _ s' => endswith s' suf
  end.

(** [s.endswith((suf1, suf2, ...))]: one of the suffixes fits. *)
Definition endswith_tuple (s : string) (sufs : list string) : bool :=
  existsb (endswith s) sufs.

(** The last character of a string, when it has one. *)
Fixpoint ultimo (s : string) : option ascii :=
  match s with
  | EmptyString => None
  | String c EmptyString => Some c
  | String _ s' => ultimo s'
  end.

End PyStr.

(** ** Data *)

(** The value under the key ["pagina"]: [num_pagina + 1] for a PDF page, the
    string ["N/A"] for an image file. *)
Inductive Pagina : Type :=
| PaginaNum (n : nat)
| PaginaNA.

(** One record of the model's output: [{'answer': ..., 'score': ...}]. *)
Record Bruto : Type := mkBruto {
  r_answer : string;
  r_score : float
}.

(** One entry of [respostas_encontradas]: the dict with the keys
    ["arquivo"], ["pagina"], ["resposta"] and ["score"]. *)
Record Resposta : Type := mkResposta {
  arquivo : string;
  pagina : Pagina;
  resposta : string;
  score : float
}.

(** An uploaded file: its [name] and the stream it carries. *)
Record Documento : Type := mkDocumento {
  name : string;
  stream : string
}.

(** An exception, as the text [str(e)] the script prints. *)
Definition Excecao : Type := string.

(** What the script does to the outside, in the order it does it. *)
Inductive Evento : Type :=
| EvSetPageConfig
| EvTitle
| EvMarkdownIntro
| EvFileUploader
| EvTextInput
| EvButton
| EvSpinner
| EvSubheader
| EvWarning (msg : string)
| EvError (msg : string)
| EvInfo (msg : string)
| EvProgressStart (text : string)
| EvProgress (num den : nat) (text : string)
| EvProgressEmpty
| EvMarkdownResposta (r : string)
| EvMarkdownFonte (a : string) (p : Pagina)
| EvMarkdownConfianca (s : float)
| EvDivider
| EvPipeline
| EvRead (nome : string)
| EvFitzOpen
| EvGetPixmap (num_pagina : nat)
| EvToBytes
| EvImageOpenBytes
| EvImageOpen (nome : string)
| EvModeloQA (pergunta : string).

(** The events of the Document Normalizer (reading and decoding a document)
    and of the Model Provider (loading the model, running it). *)
Definition ev_normalizer (e : Evento) : bool :=
  match e with
  | EvRead _ | EvFitzOpen | EvGetPixmap _ | EvToBytes
  | EvImageOpenBytes | EvImageOpen _ => true
  | _ => false
  end.

Definition ev_inferencia (e : Evento) : bool :=
  match e with EvModeloQA _ => true | _ => false end.

Definition ev_carga (e : Evento) : bool :=
  match e with EvPipeline => true | _ => false end.

Definition ev_aviso (e : Evento) : bool :=
  match e with EvWarning _ | EvError _ => true | _ => false end.

(** The events of the steps that follow the reading of a PDF, and of the
    step that follows the opening of an image. *)
Definition ev_paginas (e : Evento) : bool :=
  match e with
  | EvFitzOpen | EvGetPixmap _ | EvToBytes | EvImageOpenBytes
  | EvModeloQA _ => true
  | _ => false
  end.

(** Page identifiers in the order of the pages. *)
Definition pagina_le (p p' : Pagina) : Prop :=
  match p, p' with
  | PaginaNum n, PaginaNum n' => n <= n'
  | PaginaNA, PaginaNA => True
  | _, _ => False
  end.

(** The threshold of lines 57 and 71. *)
Definition LIMIAR : float := 0.01%float.

(** ** The libraries the script calls

    Each call runs against an abstract world and either raises or returns. *)
Class Bibliotecas : Type := {
  Mundo : Type;
  Modelo : Type;
  PaginaPDF : Type;
  Pixmap : Type;
  Imagem : Type;
  (** [pipeline("document-question-answering", model=...)] *)
  pipeline : Mundo -> Mundo * (Excecao + Modelo);
  (** [documento.read()] *)
  doc_read : Documento -> Mundo -> Mundo * (Excecao + string);
  (** [fitz.open(stream=..., filetype="pdf")], as the pages it iterates *)
  fitz_open : string -> Mundo -> Mundo * (Excecao + list PaginaPDF);
  (** [pagina.get_pixmap()] *)
  get_pixmap : PaginaPDF -> Mundo -> Mundo * (Excecao + Pixmap);
  (** [pix.tobytes("png")] *)
  tobytes : Pixmap -> Mundo -> Mundo * (Excecao + string);
  (** [Image.open(io.BytesIO(img_bytes))] *)
  image_open_bytes : string -> Mundo -> Mundo * (Excecao + Imagem);
  (** [Image.open(documento)] *)
  image_open : Documento -> Mundo -> Mundo * (Excecao + Imagem);
  (** [modelo_qa(image=..., question=...)] *)
  modelo_call : Modelo -> Imagem -> string -> Mundo -> Mundo * (Excecao + list Bruto)
}.

Section Programa.

Context {B : Bibliotecas}.

(** The state of the process: the outside world, what [st.cache_resource]
    holds, the log, and the list object of line 25. *)
Record Estado : Type := mkEstado {
  mundo : Mundo;
  cache : option Modelo;
  eventos : list Evento;
  respostas_encontradas : list Resposta
}.

(** *** The monad: state, and an exception or a value *)

Definition M (A : Type) : Type := Estado -> Estado * (Excecao + A).

Definition ret {A} (a : A) : M A := fun s => (s, inr a).

Definition bind {A C} (m : M A) (f : A -> M C) : M C :=
  fun s =>
    match m s with
    | (s', inl e) => (s', inl e)
    | (s', inr a) => f a s'
    end.

(** [try: m  except Exception as e: h e], when every raise of the
    libraries derives from [Exception].  The state is the one the exception
    left.  [ExceptException.tentar] below is the handler with raises that do
    not derive from [Exception] too. *)
Definition tentar {A} (m : M A) (h : Excecao -> M A) : M A :=
  fun s =>
    match m s with
    | (s', inl e) => h e s'
    | (s', inr a) => (s', inr a)
    end.

Definition emitir (ev : Evento) : M unit :=
  fun s => (mkEstado (mundo s) (cache s) (eventos s ++ [ev])
                     (respostas_encontradas s), inr tt).

(** A call to a library: logged, then run on the world. *)
Definition externo {A} (ev : Evento)
           (f : Mundo -> Mundo * (Excecao + A)) : M A :=
  fun s =>
    let '(w, r) := f (mundo s) in
    (mkEstado w (cache s) (eventos s ++ [ev]) (respostas_encontradas s), r).

(** [respostas_encontradas = []] *)
Definition nova_lista : M unit :=
  fun s => (mkEstado (mundo s) (cache s) (eventos s) [], inr tt).

(** [respostas_encontradas.append(r)] *)
Definition append_resposta (r : Resposta) : M unit :=
  fun s => (mkEstado (mundo s) (cache s) (eventos s)
                     (respostas_encontradas s ++ [r]), inr tt).

Definition ler_lista : M (list Resposta) :=
  fun s => (s, inr (respostas_encontradas s)).

Definition ler_cache : M (option Modelo) :=
  fun s => (s, inr (cache s)).

Definition guardar_cache (m : Modelo) : M unit :=
  fun s => (mkEstado (mundo s) (Some m) (eventos s)
                     (respostas_encontradas s), inr tt).

End Programa.

Declare Scope py_scope.
Delimit Scope py_scope with py.
Notation "x <- m ;; k" := (bind m (fun x => k))
  (at level 61, m at next level, right associativity) : py_scope.
Notation "m ;; k" := (bind m (fun _ => k))
  (at level 61, right associativity) : py_scope.


(** ** [sorted(..., key=..., reverse=True)]

    CPython sorts with [reverse=True] by reversing the list, sorting it
    with a stable sort that compares keys with [<] only, and reversing the
    result.  The stable sort is modelled by insertion: on keys that are
    totally ordered every stable sort returns the same list. *)

Module PySort.

Section Ordenar.

Context {A : Type} (key : A -> float).

(** [x], which stood before every element of [l], goes in front of the
    first element whose key is not below its own. *)
Fixpoint insert (x : A) (l : list A) : list A :=
  match l with
  | [] => [x]
  | y :: l' => if (key y <? key x)%float then y :: insert x l' else x :: y :: l'
  end.

Definition ordenar (l : list A) : list A := fold_right insert [] l.

Definition sorted (reverse : bool) (l : list A) : list A :=
  if reverse then rev (ordenar (rev l)) else ordenar l.



End Ordenar.

End PySort.

(** ** The script *)

Section Script.

Context {B : Bibliotecas}.

Local Open Scope py_scope.

(** [for x in l: f x] *)
Fixpoint para_cada {A} (f : A -> M unit) (l : list A) : M unit :=
  match l with
  | [] => ret tt
  | x :: l' => f x ;; para_cada f l'
  end.

(** [enumerate(l)], counting from [i]. *)
Fixpoint enumerate {A} (i : nat) (l : list A) : list (nat * A) :=
  match l with
  | [] => []
  | x :: l' => (i, x) :: enumerate (S i) l'
  end.

(** [@st.cache_resource] on a function without arguments: the first call
    that returns stores its result, later calls return what is stored. *)
Definition cache_resource (f : M Modelo) : M Modelo :=
  c <- ler_cache ;;
  match c with
  | Some m => ret m
  | None => m <- f ;; guardar_cache m ;; ret m
  end.

(** Lines 12-17. *)
Definition carregar_modelo_qa : M Modelo :=
  cache_resource (externo EvPipeline pipeline).

(** Lines 57 and 71: [[r for r in resultado if r['score'] > 0.01]]. *)
Definition respostas_filtradas (resultado : list Bruto) : list Bruto :=
  filter (fun r => PyFloat.gtb (r_score r) LIMIAR) resultado.

(** Lines 48-64: the body of the loop over the pages of a PDF. *)
Definition processar_pagina (nome_arquivo pergunta : string)
           (modelo_qa : Modelo) (np : nat * PaginaPDF) : M unit :=
  let '(num_pagina, pag) := np in
  pix <- externo (EvGetPixmap num_pagina) (get_pixmap pag) ;;
  img_bytes <- externo EvToBytes (tobytes pix) ;;
  imagem <- externo EvImageOpenBytes (image_open_bytes img_bytes) ;;
  resultado <- externo (EvModeloQA pergunta)
                       (modelo_call modelo_qa imagem pergunta) ;;
  para_cada
    (fun res => append_resposta {| arquivo := nome_arquivo;
                                   pagina := PaginaNum (num_pagina + 1);
                                   resposta := r_answer res;
                                   score := r_score res |})
    (respostas_filtradas resultado).

(** Lines 42-64: the PDF branch. *)
Definition ramo_pdf (documento : Documento) (nome_arquivo pergunta : string)
           (modelo_qa : Modelo) : M unit :=
  bytes_pdf <- externo (EvRead nome_arquivo) (doc_read documento) ;;
  doc_pdf <- externo EvFitzOpen (fitz_open bytes_pdf) ;;
  para_cada (processar_pagina nome_arquivo pergunta modelo_qa)
            (enumerate 0 doc_pdf).

(** Lines 68-78: the image branch. *)
Definition ramo_imagem (documento : Documento) (nome_arquivo pergunta : string)
           (modelo_qa : Modelo) : M unit :=
  imagem <- externo (EvImageOpen nome_arquivo) (image_open documento) ;;
  resultado <- externo (EvModeloQA pergunta)
                       (modelo_call modelo_qa imagem pergunta) ;;
  para_cada
    (fun res => append_resposta {| arquivo := nome_arquivo;
                                   pagina := PaginaNA;
                                   resposta := r_answer res;
                                   score := r_score res |})
    (respostas_filtradas resultado).

Definition e_pdf (nome_arquivo : string) : bool :=
  PyStr.endswith (PyStr.lower nome_arquivo) ".pdf".

Definition e_imagem (nome_arquivo : string) : bool :=
  PyStr.endswith_tuple (PyStr.lower nome_arquivo) [".png"; ".jpg"; ".jpeg"].

(** Lines 36-78: what stands under [try]. *)
Definition tentativa (total : nat) (pergunta : string) (modelo_qa : Modelo)
           (id : nat * Documento) : M unit :=
  let '(i, documento) := id in
  let nome_arquivo := name documento in
  emitir (EvProgress (i + 1) total ("Analisando: " ++ nome_arquivo)) ;;
  if e_pdf nome_arquivo then
    ramo_pdf documento nome_arquivo pergunta modelo_qa
  else if e_imagem nome_arquivo then
    ramo_imagem documento nome_arquivo pergunta modelo_qa
  else ret tt.

Definition mensagem_erro (documento : Documento) (e : Excecao) : string :=
  "Erro ao processar o arquivo " ++ name documento ++ ": " ++ e.

(** Lines 35-81: the body of the loop over the documents. *)
Definition processar_documento (total : nat) (pergunta : string)
           (modelo_qa : Modelo) (id : nat * Documento) : M unit :=
  tentar (tentativa total pergunta modelo_qa id)
         (fun e => emitir (EvError (mensagem_erro (snd id) e))).

Definition aviso_sem_documentos : string :=
  "Por favor, carregue um ou mais documentos antes de perguntar.".

(** Lines 20-84. *)
Definition processar_documentos (documentos_carregados : list Documento)
           (pergunta : string) (modelo_qa : Modelo) : M (list Resposta) :=
  nova_lista ;;
  match documentos_carregados with
  | [] => emitir (EvWarning aviso_sem_documentos) ;; ret []
  | _ :: _ =>
      emitir (EvProgressStart "Processando documentos...") ;;
      para_cada
        (processar_documento (List.length documentos_carregados)
                             pergunta modelo_qa)
        (enumerate 0 documentos_carregados) ;;
      emitir EvProgressEmpty ;;
      ler_lista
  end.

(** What the user gave the widgets in one run of the script. *)
Record Entrada : Type := mkEntrada {
  documentos_carregados : list Documento;
  pergunta_usuario : string;
  botao : bool
}.

(** Lines 118-121: one rendered answer. *)
Definition mostrar (res : Resposta) : M unit :=
  emitir (EvMarkdownResposta (resposta res)) ;;
  emitir (EvMarkdownFonte (arquivo res) (pagina res)) ;;
  emitir (EvMarkdownConfianca (score res)) ;;
  emitir EvDivider.

(** Line 115. *)
Definition respostas_ordenadas (respostas : list Resposta) : list Resposta :=
  PySort.sorted score true respostas.

Definition aviso_sem_pergunta : string := "Por favor, digite uma pergunta.".

Definition info_sem_resposta : string :=
  "Nenhuma resposta foi encontrada nos documentos fornecidos para esta pergunta.".

(** Lines 8, 89 and 90: what is drawn before the model is asked for. *)
Definition cabecalho : M unit :=
  emitir EvSetPageConfig ;;
  emitir EvTitle ;;
  emitir EvMarkdownIntro.

(** Lines 96-106: the three widgets, whose values are the [Entrada]. *)
Definition widgets : M unit :=
  emitir EvFileUploader ;;
  emitir EvTextInput ;;
  emitir EvButton.

(** Lines 8 and 89-125: one run of the script. *)
Definition script (inp : Entrada) : M unit :=
  cabecalho ;;
  modelo_qa <- carregar_modelo_qa ;;
  widgets ;;
  if botao inp then
    if negb (pergunta_usuario inp =? "")%string then
      emitir EvSpinner ;;
      respostas <- processar_documentos (documentos_carregados inp)
                                        (pergunta_usuario inp) modelo_qa ;;
      emitir EvSubheader ;;
      match respostas with
      | _ :: _ => para_cada mostrar (respostas_ordenadas respostas)
      | [] => emitir (EvInfo info_sem_resposta)
      end
    else emitir (EvWarning aviso_sem_pergunta)
  else ret tt.

(** *** What a run added

    The list and the log only grow, so what a computation added to them is
    what stands in the later state after the length of the earlier one. *)

Definition novas (s s' : Estado) : list Resposta :=
  skipn (List.length (respostas_encontradas s)) (respostas_encontradas s').

Definition novos_eventos (s s' : Estado) : list Evento :=
  skipn (List.length (eventos s)) (eventos s').

(** [s'] is [s] with [b] appended to the list and [evs] to the log, in a
    world the libraries may have changed. *)
Record Efeito (s s' : Estado) (b : list Resposta) (evs : list Evento) : Prop := {
  ef_respostas : respostas_encontradas s' = respostas_encontradas s ++ b;
  ef_eventos : eventos s' = eventos s ++ evs;
  ef_cache : cache s' = cache s
}.

(** What each iteration of a loop added to the list, iteration by
    iteration, up to and including the iteration that raised, if one did. *)
Fixpoint contribuicoes {A} (f : A -> M unit) (l : list A) (s : Estado)
  : list (list Resposta) :=
  match l with
  | [] => []
  | x :: l' =>
      match f x s with
      | (s1, inl _) => [novas s s1]
      | (s1, inr _) => novas s s1 :: contribuicoes f l' s1
      end
  end.

(** The state with one more event in the log. *)
Definition com_evento (s : Estado) (ev : Evento) : Estado :=
  mkEstado (mundo s) (cache s) (eventos s ++ [ev]) (respostas_encontradas s).

(** The state with more events in the log. *)
Definition com_eventos (s : Estado) (evs : list Evento) : Estado :=
  mkEstado (mundo s) (cache s) (eventos s ++ evs) (respostas_encontradas s).

(** Candidates in the order of their pages. *)
Definition ordem_paginas (c c' : Resposta) : Prop :=
  pagina_le (pagina c) (pagina c').

(** What the loop writes into a candidate of the document [d]: its name, a
    score above the threshold, and the page identifier of its branch. *)
Definition candidato_de (d : Documento) (c : Resposta) : Prop :=
  arquivo c = name d /\
  PyFloat.gtb (score c) LIMIAR = true /\
  if e_pdf (name d) then exists k, pagina c = PaginaNum (k + 1)
  else pagina c = PaginaNA.

(** The events of one rendered answer. *)
Definition linhas (res : Resposta) : list Evento :=
  [EvMarkdownResposta (resposta res);
   EvMarkdownFonte (arquivo res) (pagina res);
   EvMarkdownConfianca (score res);
   EvDivider].

End Script.

(** ** What the log may hold *)

Section Registo.

Context {B : Bibliotecas}.


(** The events of the rendering of the answers. *)
Definition ev_apresentacao (e : Evento) : bool :=
  match e with
  | EvMarkdownResposta _ | EvMarkdownFonte _ _ | EvMarkdownConfianca _
  | EvDivider => true
  | _ => false
  end.

(** Whatever state [m] starts in, it only adds to the log, and only events
    that satisfy [P]. *)
Definition so_emite {A} (P : Evento -> Prop) (m : M A) : Prop :=
  forall s, exists evs,
    eventos (fst (m s)) = eventos s ++ evs /\ Forall P evs.

(** The events the collection step may log for the documents [docs] and
    the question [q]. *)
Definition evento_da_coleta (docs : list Documento) (q : string)
           (e : Evento) : Prop :=
  match e with
  | EvProgressStart _ | EvProgressEmpty
  | EvFitzOpen | EvGetPixmap _ | EvToBytes | EvImageOpenBytes => True
  | EvProgress k n t =>
      1 <= k <= n /\ n = List.length docs /\
      exists d, In d docs /\ t = ("Analisando: " ++ name d)%string
  | EvRead nome =>
      exists d, In d docs /\ nome = name d /\ e_pdf nome = true
  | EvImageOpen nome =>
      exists d, In d docs /\ nome = name d /\ e_imagem nome = true
  | EvModeloQA q' => q' = q
  | EvError msg => exists d e, In d docs /\ msg = mensagem_erro d e
  | EvWarning msg => docs = [] /\ msg = aviso_sem_documentos
  | _ => False
  end.

(** The progress report of the document at position [fst id]. *)
Definition progresso_de (total : nat) (id : nat * Documento) : Evento :=
  EvProgress (fst id + 1) total ("Analisando: " ++ name (snd id)).

(** The candidate built from one record of the model. *)
Definition candidato (nome_arquivo : string) (p : Pagina) (res : Bruto)
  : Resposta :=
  {| arquivo := nome_arquivo; pagina := p;
     resposta := r_answer res; score := r_score res |}.

End Registo.

(** ** Line 80: [except Exception]

    A raise that derives from [BaseException] only ([KeyboardInterrupt],
    [SystemExit], a panic of a compiled extension) is not caught by the
    [except] of line 80: it leaves the loop and the script.  [e_exception]
    answers [isinstance(e, Exception)] of a raised object.  What follows is
    the loop body and its callers with this handler; what stands under [try]
    and everything it calls is as above.  When every raise derives from
    [Exception], these are the definitions above. *)

Module ExceptException.

Section Linha80.

Context {B : Bibliotecas}.

Variable e_exception : Excecao -> bool.

Local Open Scope py_scope.

(** [try: m  except Exception as e: h e] *)
Definition tentar {A} (m : M A) (h : Excecao -> M A) : M A :=
  fun s =>
    match m s with
    | (s', inl e) => if e_exception e then h e s' else (s', inl e)
    | (s', inr a) => (s', inr a)
    end.

(** Lines 35-81: the body of the loop over the documents. *)
Definition processar_documento (total : nat) (pergunta : string)
           (modelo_qa : Modelo) (id : nat * Documento) : M unit :=
  tentar (tentativa total pergunta modelo_qa id)
         (fun e => emitir (EvError (mensagem_erro (snd id) e))).

(** Lines 20-84. *)
Definition processar_documentos (documentos_carregados : list Documento)
           (pergunta : string) (modelo_qa : Modelo) : M (list Resposta) :=
  nova_lista ;;
  match documentos_carregados with
  | [] => emitir (EvWarning aviso_sem_documentos) ;; ret []
  | _ :: _ =>
      emitir (EvProgressStart "Processando documentos...") ;;
      para_cada
        (processar_documento (List.length documentos_carregados)
                             pergunta modelo_qa)
        (enumerate 0 documentos_carregados) ;;
      emitir EvProgressEmpty ;;
      ler_lista
  end.

(** Lines 8 and 89-125: one run of the script. *)
Definition script (inp : Entrada) : M unit :=
  cabecalho ;;
  modelo_qa <- carregar_modelo_qa ;;
  widgets ;;
  if botao inp then
    if negb (pergunta_usuario inp =? "")%string then
      emitir EvSpinner ;;
      respostas <- processar_documentos (documentos_carregados inp)
                                        (pergunta_usuario inp) modelo_qa ;;
      emitir EvSubheader ;;
      match respostas with
      | _ :: _ => para_cada mostrar (respostas_ordenadas respostas)
      | [] => emitir (EvInfo info_sem_resposta)
      end
    else emitir (EvWarning aviso_sem_pergunta)
  else ret tt.

End Linha80.

End ExceptException.

(** The state in which the loop over the documents starts (lines 25 and
    32). *)
Definition inicio_do_laco {B : Bibliotecas} (s : Estado) : Estado :=
  mkEstado (mundo s) (cache s)
           (eventos s ++ [EvProgressStart "Processando documentos..."]) [].

(** The state in which the loop over the pages of the document [d] starts,
    when it was read and opened in a world that is then [w] (lines 38, 43
    and 44). *)
Definition inicio_das_paginas {B : Bibliotecas} (total i : nat)
           (d : Documento) (w : Mundo) (s : Estado) : Estado :=
  mkEstado w (cache s)
           (eventos s ++ [progresso_de total (i, d); EvRead (name d);
                          EvFitzOpen])
           (respostas_encontradas s).

(** A computation leaves the cache as it found it. *)
Definition conserva_cache {B : Bibliotecas} {A} (m : M A) : Prop :=
  forall s, cache (fst (m s)) = cache s.

(** ** A small world to run the script in

    A PDF stream is read as one page per character, a page is rasterised
    to its character, and the model answers by the character it is shown:
    ["a"] and ["b"] carry answers, ["n"] an answer whose score is NaN, on
    ["x"] the model raises.  A stream that starts with ["!"] does not open as
    a PDF, an empty stream does not open as an image.  Each load of the
    pipeline returns a fresh model, numbered by the loads before it. *)

Module Exemplo.

Definition paginas_de (bytes : string) : list string :=
  map (fun c => String c EmptyString) (list_ascii_of_string bytes).

Definition abrir_pdf (bytes : string) : Excecao + list string :=
  match bytes with
  | String "!"%char _ => inl "cannot open broken document"
  | _ => inr (paginas_de bytes)
  end.

Definition abrir_imagem (d : Documento) : Excecao + string :=
  match stream d with
  | EmptyString => inl "cannot identify image file"
  | s => inr s
  end.

Definition responder (imagem : string) : Excecao + list Bruto :=
  if (imagem =? "a")%string then
    inr [mkBruto "alfa" 0.9%float; mkBruto "ruido" 0.005%float]
  else if (imagem =? "b")%string then
    inr [mkBruto "beta" 0.5%float; mkBruto "limiar" 0.01%float]
  else if (imagem =? "c")%string then
    inr [mkBruto "gama" 0.9%float]
  else if (imagem =? "n")%string then
    inr [mkBruto "nada" nan]
  else if (imagem =? "x")%string then inl "inference failed"
  else inr [].

#[export] Instance bibliotecas : Bibliotecas := {|
  Mundo := nat;
  Modelo := nat;
  PaginaPDF := string;
  Pixmap := string;
  Imagem := string;
  pipeline := fun w => (S w, inr w);
  doc_read := fun d w => (w, inr (stream d));
  fitz_open := fun bytes w => (w, abrir_pdf bytes);
  get_pixmap := fun p w => (w, inr p);
  tobytes := fun p w => (w, inr p);
  image_open_bytes := fun b w => (w, inr b);
  image_open := fun d w => (w, abrir_imagem d);
  modelo_call := fun _ imagem _ w => (w, responder imagem)
|}.

(** A fresh process: nothing loaded, nothing logged. *)
Definition inicio : Estado := mkEstado (0%nat : Mundo) None [] [].

(** A process whose model is loaded. *)
Definition carregado : Estado := mkEstado (1%nat : Mundo) (Some 0%nat) [] [].

(** A fresh process after its first call of [carregar_modelo_qa]. *)
Definition primeira_carga : Estado :=
  mkEstado (1%nat : Mundo) (Some 0%nat) [EvPipeline] [].

(** A fresh process after the header of the script and the load. *)
Definition pronto : Estado :=
  mkEstado (1%nat : Mundo) (Some 0%nat)
           [EvSetPageConfig; EvTitle; EvMarkdownIntro; EvPipeline] [].

Definition relatorio : Documento := mkDocumento "relatorio.pdf" "axb".
Definition foto : Documento := mkDocumento "foto.png" "b".
Definition notas : Documento := mkDocumento "notas.txt" "a".
Definition scan : Documento := mkDocumento "SCAN.PDF" "abc".

End Exemplo.

(** ** A world whose first load of the model fails

    The world of [Exemplo], except that the pipeline raises while the world
    is at 0 (and moves it to 1), and loads from then on. *)

Module ExemploFalha.

Definition carregar (w : nat) : nat * (Excecao + nat) :=
  match w with
  | O => (1%nat, inl "connection error")
  | S _ => (S w, inr w)
  end.

Definition bibliotecas : Bibliotecas := {|
  Mundo := nat;
  Modelo := nat;
  PaginaPDF := string;
  Pixmap := string;
  Imagem := string;
  pipeline := carregar;
  doc_read := fun d w => (w, inr (stream d));
  fitz_open := fun bytes w => (w, Exemplo.abrir_pdf bytes);
  get_pixmap := fun p w => (w, inr p);
  tobytes := fun p w => (w, inr p);
  image_open_bytes := fun b w => (w, inr b);
  image_open := fun d w => (w, Exemplo.abrir_imagem d);
  modelo_call := fun _ imagem _ w => (w, Exemplo.responder imagem)
|}.

(** A fresh process. *)
Definition inicio : @Estado bibliotecas :=
  @mkEstado bibliotecas 0%nat None [] [].

(** The process after the header of the script and the load that failed. *)
Definition falhou : @Estado bibliotecas :=
  @mkEstado bibliotecas 1%nat None
            [EvSetPageConfig; EvTitle; EvMarkdownIntro; EvPipeline] [].

End ExemploFalha.

(** ** A world in which the model is interrupted

    The world of [Exemplo], except that on the page ["k"] the model raises
    [KeyboardInterrupt], which does not derive from [Exception]. *)

Module ExemploInterrupcao.

Definition responder (imagem : string) : Excecao + list Bruto :=
  if (imagem =? "k")%string then inl "KeyboardInterrupt"
  else Exemplo.responder imagem.

Definition bibliotecas : Bibliotecas := {|
  Mundo := nat;
  Modelo := nat;
  PaginaPDF := string;
  Pixmap := string;
  Imagem := string;
  pipeline := fun w => (S w, inr w);
  doc_read := fun d w => (w, inr (stream d));
  fitz_open := fun bytes w => (w, Exemplo.abrir_pdf bytes);
  get_pixmap := fun p w => (w, inr p);
  tobytes := fun p w => (w, inr p);
  image_open_bytes := fun b w => (w, inr b);
  image_open := fun d w => (w, Exemplo.abrir_imagem d);
  modelo_call := fun _ imagem _ w => (w, responder imagem)
|}.

(** [isinstance(e, Exception)] *)
Definition e_exception (e : Excecao) : bool :=
  negb (e =? "KeyboardInterrupt")%string.

(** A process whose model is loaded. *)
Definition carregado : @Estado bibliotecas :=
  @mkEstado bibliotecas 1%nat (Some 0%nat) [] [].

(** A PDF whose second page interrupts the model. *)
Definition longo : Documento := mkDocumento "longo.pdf" "akb".

End ExemploInterrupcao.

(** * Properties *)

(** ** Comparison of floats *)

Module PyFloatFacts.

Import PyFloat.




Lemma SFcompare_some_l (x y : spec_float) (c : comparison) :
  SFcompare x y = Some c -> SFcompare x x <> None.
Proof.
  destruct x, y; simpl; congruence.
Qed.








End PyFloatFacts.

(** ** Suffixes of file names *)

Module PyStrFacts.

Import PyStr.

(** A string and a non-empty suffix of it end in the same character. *)
Lemma endswith_ultimo (s suf : string) :
  endswith s suf = true -> suf <> EmptyString -> ultimo s = ultimo suf.
Proof.
  induction s as [|c s IH]; intros H Hsuf.
  - destruct suf; [congruence|discriminate].
  - cbn [endswith] in H. apply orb_true_iff in H as [H|H].
    + apply String.eqb_eq in H. now subst suf.
    + rewrite <- (IH H Hsuf). destruct s; [|reflexivity].
      destruct suf; [congruence|discriminate].
Qed.

(** What [endswith] computes: the suffix is what is left of the string
    after some prefix. *)
Lemma endswith_spec (s suf : string) :
  endswith s suf = true <-> exists p, s = (p ++ suf)%string.
Proof.
  split.
  - induction s as [|c s IH]; intros H.
    + destruct suf; [now exists ""|discriminate].
    + cbn [endswith] in H. apply orb_true_iff in H as [H|H].
      * apply String.eqb_eq in H. now exists "".
      * destruct (IH H) as [p ->]. now exists (String c p).
  - intros [p ->]. induction p as [|c p IH].
    + destruct suf; cbn [endswith String.append]; [reflexivity|].
      now rewrite String.eqb_refl.
    + cbn [endswith String.append]. rewrite IH. apply orb_true_r.
Qed.

(** A name that ends in [.pdf] ends in none of the image suffixes: the
    last characters differ. *)
Lemma pdf_nao_imagem (s : string) :
  endswith s ".pdf" = true ->
  endswith_tuple s [".png"; ".jpg"; ".jpeg"] = false.
Proof.
  intros H. apply endswith_ultimo in H; [|discriminate].
  unfold endswith_tuple. cbn [existsb].
  destruct (endswith s ".png") eqn:E1.
  { apply endswith_ultimo in E1; [|discriminate]. rewrite H in E1.
    discriminate. }
  destruct (endswith s ".jpg") eqn:E2.
  { apply endswith_ultimo in E2; [|discriminate]. rewrite H in E2.
    discriminate. }
  destruct (endswith s ".jpeg") eqn:E3.
  { apply endswith_ultimo in E3; [|discriminate]. rewrite H in E3.
    discriminate. }
  reflexivity.
Qed.

End PyStrFacts.

(** ** The stable sort *)

Module PySortFacts.

Import PySort.

Section Ordenar.

Context {A : Type} (key : A -> float).

Lemma insert_perm (x : A) (l : list A) : Permutation (x :: l) (insert key x l).
Proof.
  induction l as [|y l IH]; simpl; [reflexivity|].
  destruct (key y <? key x)%float; [|reflexivity].
  rewrite perm_swap. now constructor.
Qed.



Lemma insert_Forall (P : A -> Prop) (x : A) (l : list A) :
  P x -> Forall P l -> Forall P (insert key x l).
Proof.
  intros Hx Hl. eapply Permutation_Forall; [apply insert_perm|].
  now constructor.
Qed.










End Ordenar.

End PySortFacts.

(** ** Steps of the monad *)

Section Passos.

Context {B : Bibliotecas}.

Local Open Scope py_scope.

Lemma bind_externo {A C} (ev : Evento) (f : Mundo -> Mundo * (Excecao + A))
      (k : A -> M C) (s : Estado) :
  bind (externo ev f) k s =
  match f (mundo s) with
  | (w, inl e) =>
      (mkEstado w (cache s) (eventos s ++ [ev]) (respostas_encontradas s), inl e)
  | (w, inr a) =>
      k a (mkEstado w (cache s) (eventos s ++ [ev]) (respostas_encontradas s))
  end.
Proof.
  unfold bind, externo. now destruct (f (mundo s)) as [w [e|a]].
Qed.

Lemma bind_emitir {C} (ev : Evento) (k : unit -> M C) (s : Estado) :
  bind (emitir ev) k s = k tt (com_evento s ev).
Proof. reflexivity. Qed.

Lemma Efeito_refl (s : Estado) : Efeito s s [] [].
Proof. constructor; now rewrite ?app_nil_r. Qed.

Lemma Efeito_trans (s s1 s2 : Estado) b1 b2 e1 e2 :
  Efeito s s1 b1 e1 -> Efeito s1 s2 b2 e2 -> Efeito s s2 (b1 ++ b2) (e1 ++ e2).
Proof.
  intros [H1 H2 H3] [H4 H5 H6]. constructor.
  - now rewrite H4, H1, app_assoc.
  - now rewrite H5, H2, app_assoc.
  - now rewrite H6.
Qed.

Lemma Efeito_novas (s s' : Estado) b evs : Efeito s s' b evs -> novas s s' = b.
Proof.
  intros [H _ _]. unfold novas. rewrite H, skipn_app, skipn_all, Nat.sub_diag.
  reflexivity.
Qed.

Lemma Efeito_novos_eventos (s s' : Estado) b evs :
  Efeito s s' b evs -> novos_eventos s s' = evs.
Proof.
  intros [_ H _]. unfold novos_eventos.
  rewrite H, skipn_app, skipn_all, Nat.sub_diag. reflexivity.
Qed.

Lemma Efeito_eventos (s : Estado) (w : Mundo) (evs : list Evento) :
  Efeito s (mkEstado w (cache s) (eventos s ++ evs) (respostas_encontradas s))
         [] evs.
Proof. constructor; cbn; now rewrite ?app_nil_r. Qed.

(** A loop of [append]s adds the list it runs over, and cannot fail. *)
Lemma para_cada_append {A} (g : A -> Resposta) (l : list A) (s : Estado) :
  para_cada (fun res => append_resposta (g res)) l s =
  (mkEstado (mundo s) (cache s) (eventos s)
            (respostas_encontradas s ++ map g l), inr tt).
Proof.
  revert s. induction l as [|x l IH]; intros s; cbn [para_cada map].
  - unfold ret. rewrite app_nil_r. now destruct s.
  - unfold bind, append_resposta. rewrite IH. cbn.
    now rewrite <- app_assoc.
Qed.

(** A loop that meets no exception runs every iteration, each from the
    state the one before left. *)
Lemma para_cada_cons {A} (f : A -> M unit) (x : A) (l : list A) (s s1 : Estado) :
  f x s = (s1, inr tt) -> para_cada f (x :: l) s = para_cada f l s1.
Proof.
  intros H. cbn [para_cada]. unfold bind. now rewrite H.
Qed.

Lemma para_cada_app {A} (f : A -> M unit) (l1 l2 : list A) (s s1 : Estado) :
  para_cada f l1 s = (s1, inr tt) ->
  para_cada f (l1 ++ l2) s = para_cada f l2 s1.
Proof.
  revert s. induction l1 as [|x l1 IH]; intros s; cbn [para_cada app].
  - unfold ret. now intros [= ->].
  - unfold bind. destruct (f x s) as [s' [e|[]]]; [discriminate|]. apply IH.
Qed.

Lemma enumerate_app {A} (i : nat) (l1 l2 : list A) :
  enumerate i (l1 ++ l2) = enumerate i l1 ++ enumerate (i + List.length l1) l2.
Proof.
  revert i. induction l1 as [|x l1 IH]; intros i; cbn.
  - now rewrite Nat.add_0_r.
  - rewrite IH. now rewrite Nat.add_succ_r.
Qed.

Lemma enumerate_fst {A} (i : nat) (l : list A) :
  map fst (enumerate i l) = seq i (List.length l).
Proof.
  revert i. induction l as [|x l IH]; intros i; cbn; [reflexivity|].
  now rewrite IH.
Qed.

Lemma enumerate_snd {A} (i : nat) (l : list A) : map snd (enumerate i l) = l.
Proof.
  revert i. induction l as [|x l IH]; intros i; cbn; [reflexivity|].
  now rewrite IH.
Qed.

Lemma respostas_filtradas_acima (resultado : list Bruto) :
  Forall (fun r => PyFloat.gtb (r_score r) LIMIAR = true)
         (respostas_filtradas resultado).
Proof.
  apply Forall_forall. intros r Hr. unfold respostas_filtradas in Hr.
  now apply filter_In in Hr.
Qed.

Lemma emitir_run (ev : Evento) (s : Estado) :
  emitir ev s = (com_evento s ev, inr tt).
Proof. reflexivity. Qed.

Lemma com_evento_eventos (s : Estado) (ev : Evento) :
  com_evento s ev = com_eventos s [ev].
Proof. reflexivity. Qed.

Lemma com_eventos_app (s : Estado) (l1 l2 : list Evento) :
  com_eventos (com_eventos s l1) l2 = com_eventos s (l1 ++ l2).
Proof. unfold com_eventos. cbn. now rewrite app_assoc. Qed.

Lemma com_eventos_nil (s : Estado) : com_eventos s [] = s.
Proof. unfold com_eventos. rewrite app_nil_r. now destruct s. Qed.

Lemma Efeito_com_eventos (s : Estado) (evs : list Evento) :
  Efeito s (com_eventos s evs) [] evs.
Proof. apply Efeito_eventos. Qed.

Lemma cabecalho_run (s : Estado) :
  cabecalho s =
  (com_eventos s [EvSetPageConfig; EvTitle; EvMarkdownIntro], inr tt).
Proof.
  unfold cabecalho. rewrite !bind_emitir, emitir_run.
  rewrite !com_evento_eventos, !com_eventos_app. reflexivity.
Qed.

Lemma widgets_run (s : Estado) :
  widgets s = (com_eventos s [EvFileUploader; EvTextInput; EvButton], inr tt).
Proof.
  unfold widgets. rewrite !bind_emitir, emitir_run.
  rewrite !com_evento_eventos, !com_eventos_app. reflexivity.
Qed.

(** The answers are rendered one after the other, in the order of the
    list. *)
Lemma para_cada_mostrar (l : list Resposta) (s : Estado) :
  para_cada mostrar l s = (com_eventos s (flat_map linhas l), inr tt).
Proof.
  revert s. induction l as [|res l IH]; intros s; cbn [para_cada flat_map].
  - unfold ret. now rewrite com_eventos_nil.
  - unfold mostrar at 1. unfold bind at 1.
    rewrite !bind_emitir, emitir_run, IH.
    rewrite !com_evento_eventos, !com_eventos_app. reflexivity.
Qed.

(** A call of [carregar_modelo_qa] that returns leaves its result in the
    cache; it built the pipeline if and only if the cache was empty. *)
Lemma novos_eventos_app (s s' : Estado) (evs : list Evento) :
  eventos s' = eventos s ++ evs -> novos_eventos s s' = evs.
Proof.
  intros H. unfold novos_eventos.
  now rewrite H, skipn_app, skipn_all, Nat.sub_diag.
Qed.

Lemma carregar_modelo_qa_retorna (s s1 : Estado) (m : Modelo) :
  carregar_modelo_qa s = (s1, inr m) ->
  cache s1 = Some m /\
  respostas_encontradas s1 = respostas_encontradas s /\
  eventos s1 =
    eventos s ++ match cache s with None => [EvPipeline] | Some _ => [] end.
Proof.
  intros Hrun. unfold carregar_modelo_qa, cache_resource in Hrun.
  unfold bind at 1 in Hrun. unfold ler_cache at 1 in Hrun.
  destruct (cache s) as [m0|] eqn:Ec.
  - unfold ret in Hrun. injection Hrun as <- <-.
    now rewrite app_nil_r.
  - rewrite bind_externo in Hrun.
    destruct (pipeline (mundo s)) as [w [e|m1]]; [discriminate|].
    cbn in Hrun. injection Hrun as <- <-. now cbn.
Qed.

Lemma carregar_modelo_qa_cache (s : Estado) (m : Modelo) :
  cache s = Some m -> carregar_modelo_qa s = (s, inr m).
Proof.
  intros H. unfold carregar_modelo_qa, cache_resource, bind, ler_cache.
  now rewrite H.
Qed.

End Passos.

(** ** The loops of [processar_documentos] *)

Section Lacos.

Context {B : Bibliotecas}.

Local Open Scope py_scope.

Lemma StronglySorted_app {A} (R : A -> A -> Prop) (l1 l2 : list A) :
  StronglySorted R l1 -> StronglySorted R l2 ->
  (forall x y, In x l1 -> In y l2 -> R x y) ->
  StronglySorted R (l1 ++ l2).
Proof.
  induction l1 as [|a l1 IH]; cbn; intros H1 H2 H; [assumption|].
  inversion H1 as [|? ? Hs Hf]; subst. constructor.
  - apply IH; auto.
  - apply Forall_app. split; [assumption|].
    apply Forall_forall. intros y Hy. apply H; auto.
Qed.

Lemma StronglySorted_mesma_pagina (p : Pagina) (b : list Resposta) :
  pagina_le p p -> Forall (fun c => pagina c = p) b ->
  StronglySorted ordem_paginas b.
Proof.
  intros Hp. induction 1 as [|c b Hc Hb IH]; constructor; [assumption|].
  eapply Forall_impl; [|exact Hb]. intros c' Hc'.
  unfold ordem_paginas. now rewrite Hc, Hc'.
Qed.

(** A step that raised: the log grew, the list did not. *)
Ltac passo_falhou :=
  split; [apply Efeito_eventos|];
  split; [constructor|];
  split; [repeat constructor|reflexivity].

(** One page: its candidates carry the file name, the page index plus one
    and a score above the threshold; a page that raises adds none. *)
Lemma processar_pagina_spec (nome q : string) (m : Modelo)
      (k : nat) (p : PaginaPDF) (s : Estado) :
  exists b evs,
    Efeito s (fst (processar_pagina nome q m (k, p) s)) b evs /\
    Forall (fun c => arquivo c = nome /\ pagina c = PaginaNum (k + 1) /\
                     PyFloat.gtb (score c) LIMIAR = true) b /\
    Forall (fun e => ev_paginas e = true) evs /\
    (forall e, snd (processar_pagina nome q m (k, p) s) = inl e -> b = []).
Proof.
  unfold processar_pagina.
  rewrite bind_externo. destruct (get_pixmap p (mundo s)) as [w1 [e1|pix]].
  { exists [], [EvGetPixmap k]. cbn. passo_falhou. }
  rewrite bind_externo. cbn [mundo cache eventos respostas_encontradas].
  destruct (tobytes pix w1) as [w2 [e2|img_bytes]].
  { exists [], [EvGetPixmap k; EvToBytes]. cbn. rewrite <- app_assoc.
    passo_falhou. }
  rewrite bind_externo. cbn [mundo cache eventos respostas_encontradas].
  destruct (image_open_bytes img_bytes w2) as [w3 [e3|imagem]].
  { exists [], [EvGetPixmap k; EvToBytes; EvImageOpenBytes]. cbn.
    rewrite <- !app_assoc. passo_falhou. }
  rewrite bind_externo. cbn [mundo cache eventos respostas_encontradas].
  destruct (modelo_call m imagem q w3) as [w4 [e4|resultado]].
  { exists [], [EvGetPixmap k; EvToBytes; EvImageOpenBytes; EvModeloQA q].
    cbn. rewrite <- !app_assoc. passo_falhou. }
  rewrite para_cada_append. cbn [fst snd].
  eexists _, [EvGetPixmap k; EvToBytes; EvImageOpenBytes; EvModeloQA q].
  split; [|split; [|split]].
  - constructor; cbn; [reflexivity| |reflexivity].
    now rewrite <- !app_assoc.
  - apply Forall_map. eapply Forall_impl; [|apply respostas_filtradas_acima].
    cbn. auto.
  - repeat constructor.
  - discriminate.
Qed.

(** The pages of one PDF, from index [j] on: the candidates come page after
    page. *)
Lemma laco_paginas_spec (nome q : string) (m : Modelo)
      (ps : list PaginaPDF) (j : nat) (s : Estado) :
  exists b evs,
    Efeito s (fst (para_cada (processar_pagina nome q m) (enumerate j ps) s))
           b evs /\
    Forall (fun c => arquivo c = nome /\
                     (exists k, j <= k /\ pagina c = PaginaNum (k + 1)) /\
                     PyFloat.gtb (score c) LIMIAR = true) b /\
    Forall (fun e => ev_paginas e = true) evs /\
    StronglySorted ordem_paginas b.
Proof.
  revert j s. induction ps as [|p ps IH]; intros j s; cbn [enumerate para_cada].
  - exists [], []. split; [apply Efeito_refl|]. repeat constructor.
  - destruct (processar_pagina_spec nome q m j p s)
      as (b1 & e1 & Hef1 & Hb1 & He1 & _).
    assert (Hs1 : StronglySorted ordem_paginas b1).
    { apply (StronglySorted_mesma_pagina (PaginaNum (j + 1))); [cbn; lia|].
      eapply Forall_impl; [|exact Hb1]. now intros c (_ & H & _). }
    assert (Hb1' : Forall (fun c => arquivo c = nome /\
                     (exists k, j <= k /\ pagina c = PaginaNum (k + 1)) /\
                     PyFloat.gtb (score c) LIMIAR = true) b1).
    { eapply Forall_impl; [|exact Hb1]. intros c (H1 & H2 & H3). eauto. }
    unfold bind.
    destruct (processar_pagina nome q m (j, p) s) as [s1 [e|[]]];
      cbn [fst] in *.
    + exists b1, e1. auto.
    + destruct (IH (S j) s1) as (b2 & e2 & Hef2 & Hb2 & He2 & Hs2).
      exists (b1 ++ b2), (e1 ++ e2). split; [|split; [|split]].
      * eapply Efeito_trans; eassumption.
      * apply Forall_app. split; [assumption|].
        eapply Forall_impl; [|exact Hb2].
        intros c (H1 & (k & Hk & H2) & H3). repeat split; auto.
        exists k. split; [lia|assumption].
      * apply Forall_app. auto.
      * apply StronglySorted_app; auto.
        intros x y Hx Hy. rewrite Forall_forall in Hb1, Hb2.
        destruct (Hb1 x Hx) as (_ & Hpx & _).
        destruct (Hb2 y Hy) as (_ & (k & Hk & Hpy) & _).
        unfold ordem_paginas. rewrite Hpx, Hpy. cbn. lia.
Qed.

(** The PDF branch: the document is read first; the candidates come page
    after page. *)
Lemma ramo_pdf_spec (d : Documento) (nome q : string) (m : Modelo) (s : Estado) :
  exists b evs,
    Efeito s (fst (ramo_pdf d nome q m s)) b (EvRead nome :: evs) /\
    Forall (fun c => arquivo c = nome /\
                     (exists k, pagina c = PaginaNum (k + 1)) /\
                     PyFloat.gtb (score c) LIMIAR = true) b /\
    Forall (fun e => ev_paginas e = true) evs /\
    StronglySorted ordem_paginas b.
Proof.
  unfold ramo_pdf.
  rewrite bind_externo. destruct (doc_read d (mundo s)) as [w1 [e1|bytes_pdf]].
  { exists [], []. cbn. split; [apply Efeito_eventos|]. repeat constructor. }
  rewrite bind_externo. cbn [mundo cache eventos respostas_encontradas].
  destruct (fitz_open bytes_pdf w1) as [w2 [e2|doc_pdf]].
  { exists [], [EvFitzOpen]. cbn. rewrite <- app_assoc.
    split; [apply Efeito_eventos|]. repeat constructor. }
  match goal with |- context [para_cada _ _ ?s2] => set (s0 := s2) end.
  destruct (laco_paginas_spec nome q m doc_pdf 0 s0)
    as (b & evs & Hef & Hb & He & Hs).
  exists b, (EvFitzOpen :: evs). split; [|split; [|split]]; auto.
  - apply (Efeito_trans s s0 _ [] b [EvRead nome; EvFitzOpen] evs);
      [|exact Hef].
    subst s0. rewrite <- app_assoc. apply Efeito_eventos.
  - eapply Forall_impl; [|exact Hb].
    intros c (H1 & (k & _ & H2) & H3). eauto.
Qed.

(** The image branch: the image is opened first; an image that raises
    adds no candidate. *)
Lemma ramo_imagem_spec (d : Documento) (nome q : string) (m : Modelo)
      (s : Estado) :
  exists b evs,
    Efeito s (fst (ramo_imagem d nome q m s)) b (EvImageOpen nome :: evs) /\
    Forall (fun c => arquivo c = nome /\ pagina c = PaginaNA /\
                     PyFloat.gtb (score c) LIMIAR = true) b /\
    Forall (fun e => ev_paginas e = true) evs /\
    (forall e, snd (ramo_imagem d nome q m s) = inl e -> b = []).
Proof.
  unfold ramo_imagem.
  rewrite bind_externo. destruct (image_open d (mundo s)) as [w1 [e1|imagem]].
  { exists [], []. cbn. passo_falhou. }
  rewrite bind_externo. cbn [mundo cache eventos respostas_encontradas].
  destruct (modelo_call m imagem q w1) as [w2 [e2|resultado]].
  { exists [], [EvModeloQA q]. cbn. rewrite <- app_assoc. passo_falhou. }
  rewrite para_cada_append. cbn [fst snd].
  eexists _, [EvModeloQA q]. split; [|split; [|split]].
  - constructor; cbn; [reflexivity| |reflexivity]. now rewrite <- !app_assoc.
  - apply Forall_map. eapply Forall_impl; [|apply respostas_filtradas_acima].
    cbn. auto.
  - repeat constructor.
  - discriminate.
Qed.

Lemma e_pdf_nao_imagem (nome : string) : e_pdf nome = true -> e_imagem nome = false.
Proof. apply PyStrFacts.pdf_nao_imagem. Qed.

Lemma Efeito_com_evento (s : Estado) (ev : Evento) :
  Efeito s (com_evento s ev) [] [ev].
Proof. apply Efeito_eventos. Qed.

(** What stands under [try], for one document: progress is reported, then
    the branch of the file name runs. *)
Lemma tentativa_spec (total : nat) (q : string) (m : Modelo)
      (i : nat) (d : Documento) (s : Estado) :
  exists b evs,
    Efeito s (fst (tentativa total q m (i, d) s)) b
      (EvProgress (i + 1) total ("Analisando: " ++ name d)
       :: (if e_pdf (name d) then [EvRead (name d)]
           else if e_imagem (name d) then [EvImageOpen (name d)] else [])
       ++ evs) /\
    Forall (candidato_de d) b /\
    Forall (fun e => ev_paginas e = true) evs /\
    StronglySorted ordem_paginas b /\
    (e_pdf (name d) = false ->
     forall e, snd (tentativa total q m (i, d) s) = inl e -> b = []).
Proof.
  unfold tentativa. rewrite bind_emitir.
  set (ev := EvProgress (i + 1) total ("Analisando: " ++ name d)).
  pose proof (Efeito_com_evento s ev) as H0.
  unfold candidato_de.
  destruct (e_pdf (name d)) eqn:Epdf; [|destruct (e_imagem (name d)) eqn:Eimg].
  - destruct (ramo_pdf_spec d (name d) q m (com_evento s ev))
      as (b & evs & Hef & Hb & He & Hs).
    exists b, evs. split; [|split; [|split; [|split]]]; auto.
    + apply (Efeito_trans _ _ _ [] b [ev] _ H0 Hef).
    + eapply Forall_impl; [|exact Hb]. intros c (H1 & H2 & H3). auto.
    + discriminate.
  - destruct (ramo_imagem_spec d (name d) q m (com_evento s ev))
      as (b & evs & Hef & Hb & He & Hz).
    exists b, evs. split; [|split; [|split; [|split]]]; auto.
    + apply (Efeito_trans _ _ _ [] b [ev] _ H0 Hef).
    + eapply Forall_impl; [|exact Hb]. intros c (H1 & H2 & H3). auto.
    + apply (StronglySorted_mesma_pagina PaginaNA); [exact I|].
      eapply Forall_impl; [|exact Hb]. now intros c (_ & H & _).
  - exists [], []. cbn. split; [exact H0|]. repeat constructor.
Qed.

(** One document: the iteration never raises; what it adds to the list are
    candidates of that document, in the order of their pages; what it adds
    to the log are the progress report, the first call of the branch, the
    calls that follow it and, if the branch raised, one error. *)
Lemma processar_documento_spec (total : nat) (q : string) (m : Modelo)
      (i : nat) (d : Documento) (s : Estado) :
  snd (processar_documento total q m (i, d) s) = inr tt /\
  exists b evs erro,
    Efeito s (fst (processar_documento total q m (i, d) s)) b
      (EvProgress (i + 1) total ("Analisando: " ++ name d)
       :: (if e_pdf (name d) then [EvRead (name d)]
           else if e_imagem (name d) then [EvImageOpen (name d)] else [])
       ++ evs ++ erro) /\
    Forall (candidato_de d) b /\
    Forall (fun e => ev_paginas e = true) evs /\
    StronglySorted ordem_paginas b /\
    (erro = [] \/ exists e, erro = [EvError (mensagem_erro d e)]).
Proof.
  destruct (tentativa_spec total q m i d s) as (b & evs & Hef & Hb & He & Hs & _).
  unfold processar_documento, tentar.
  destruct (tentativa total q m (i, d) s) as [s1 [e|[]]]; cbn [fst snd] in *.
  - split; [reflexivity|].
    exists b, evs, [EvError (mensagem_erro d e)].
    split; [|split; [|split; [|split]]]; eauto.
    pose proof (Efeito_trans _ _ _ _ _ _ _ Hef
                  (Efeito_com_evento s1 (EvError (mensagem_erro d e)))) as H.
    rewrite app_nil_r in H. cbn [app] in H. rewrite <- app_assoc in H.
    exact H.
  - split; [reflexivity|]. exists b, evs, [].
    rewrite app_nil_r. auto 6.
Qed.

Lemma bind_ok {A C} (mm : M A) (k : A -> M C) (s s1 : Estado) (a : A) :
  mm s = (s1, inr a) -> bind mm k s = k a s1.
Proof. intros H. unfold bind. now rewrite H. Qed.

(** The loop over the documents never raises, and the list grows by the
    contribution of each document, one after the other. *)
Lemma laco_documentos_spec (total : nat) (q : string) (m : Modelo)
      (docs : list Documento) (j : nat) (s : Estado) :
  exists s',
    para_cada (processar_documento total q m) (enumerate j docs) s
      = (s', inr tt) /\
    respostas_encontradas s' =
      respostas_encontradas s ++
      List.concat (contribuicoes (processar_documento total q m)
                            (enumerate j docs) s) /\
    cache s' = cache s /\
    Forall2 (fun d b => Forall (candidato_de d) b /\
                        StronglySorted ordem_paginas b)
            docs
            (contribuicoes (processar_documento total q m)
                           (enumerate j docs) s).
Proof.
  revert j s. induction docs as [|d docs IH]; intros j s;
    cbn [enumerate para_cada contribuicoes List.concat].
  - exists s. rewrite app_nil_r. repeat split; constructor.
  - destruct (processar_documento_spec total q m j d s)
      as (Hr & b & evs & erro & Hef & Hb & _ & Hs & _).
    destruct (processar_documento total q m (j, d) s) as [s1 r] eqn:E.
    cbn [fst snd] in *. subst r. cbv beta iota.
    rewrite (bind_ok _ _ _ _ _ E).
    destruct (IH (S j) s1) as (s' & Hrun & Hresp & Hcache & Hall).
    exists s'. rewrite (Efeito_novas _ _ _ _ Hef).
    split; [exact Hrun|]. split; [|split].
    + cbn [List.concat].
      rewrite Hresp, (ef_respostas _ _ _ _ Hef). now rewrite app_assoc.
    + rewrite Hcache. apply (ef_cache _ _ _ _ Hef).
    + constructor; auto.
Qed.

(** The whole collection step: it always returns, and what it returns is
    the concatenation of the contributions of the documents, the loop having
    started on an empty list. *)
Lemma processar_documentos_spec (docs : list Documento) (q : string)
      (m : Modelo) (s : Estado) :
  let s0 := mkEstado (mundo s) (cache s)
                     (eventos s ++ [EvProgressStart "Processando documentos..."])
                     [] in
  let blocos := contribuicoes (processar_documento (List.length docs) q m)
                              (enumerate 0 docs) s0 in
  exists s',
    processar_documentos docs q m s = (s', inr (List.concat blocos)) /\
    cache s' = cache s /\
    Forall2 (fun d b => Forall (candidato_de d) b /\
                        StronglySorted ordem_paginas b)
            docs blocos.
Proof.
  intros s0 blocos. unfold processar_documentos.
  destruct docs as [|d0 docs'].
  - eexists. split; [reflexivity|]. split; [reflexivity|constructor].
  - cbv beta iota. set (docs := d0 :: docs') in *.
    destruct (laco_documentos_spec (List.length docs) q m docs 0 s0)
      as (s' & Hrun & Hresp & Hcache & Hall).
    exists (com_evento s' EvProgressEmpty).
    split; [|split]; [|exact Hcache|exact Hall].
    unfold bind at 1. cbn [nova_lista]. rewrite bind_emitir.
    change (com_evento (mkEstado _ _ _ _) _) with s0.
    rewrite (bind_ok _ _ _ _ _ Hrun), bind_emitir.
    unfold ler_lista. cbn [com_evento respostas_encontradas].
    now rewrite Hresp.
Qed.

Lemma novas_app (s s' : Estado) (b : list Resposta) :
  respostas_encontradas s' = respostas_encontradas s ++ b -> novas s s' = b.
Proof.
  intros H. unfold novas. now rewrite H, skipn_app, skipn_all, Nat.sub_diag.
Qed.

(** The loop over the pages, block by block: what the loop added is what
    its pages added, one after the other in the order of the pages, and the
    block of the page at position [n] carries the identifier [j + n + 1]
    when the count started at [j]. *)
Lemma laco_paginas_blocos (nome q : string) (m : Modelo)
      (ps : list PaginaPDF) (j : nat) (sl : Estado) :
  let blocos := contribuicoes (processar_pagina nome q m) (enumerate j ps) sl in
  novas sl (fst (para_cada (processar_pagina nome q m) (enumerate j ps) sl))
    = List.concat blocos /\
  (forall n b, nth_error blocos n = Some b ->
               Forall (fun c => pagina c = PaginaNum (j + n + 1)) b) /\
  (snd (para_cada (processar_pagina nome q m) (enumerate j ps) sl) = inr tt ->
   List.length blocos = List.length ps).
Proof.
  cbv zeta. revert j sl. induction ps as [|p ps IH]; intros j sl;
    cbn [enumerate para_cada contribuicoes].
  - split; [apply novas_app; cbn; now rewrite app_nil_r|].
    split; [|reflexivity]. intros [|n] b; discriminate.
  - destruct (processar_pagina_spec nome q m j p sl)
      as (b1 & evs & Hef & Hb & _ & _).
    assert (Hb' : Forall (fun c => pagina c = PaginaNum (j + 0 + 1)) b1).
    { rewrite Nat.add_0_r. eapply Forall_impl; [|exact Hb].
      now intros c (_ & H & _). }
    unfold bind.
    destruct (processar_pagina nome q m (j, p) sl) as [s1 [e|[]]];
      cbn [fst snd] in *; rewrite (Efeito_novas _ _ _ _ Hef).
    + split; [|split; [|discriminate]].
      * cbn. now rewrite app_nil_r.
      * intros [|[|n]] b; cbn; try discriminate. now intros [= <-].
    + destruct (IH (S j) s1) as (H1 & H2 & H3).
      split; [|split].
      * apply novas_app. cbn [List.concat]. rewrite <- H1.
        unfold novas.
        destruct (laco_paginas_spec nome q m ps (S j) s1)
          as (b2 & e2 & Hef2 & _).
        rewrite (ef_respostas _ _ _ _ Hef2), (ef_respostas _ _ _ _ Hef).
        rewrite skipn_app, skipn_all, Nat.sub_diag. cbn [skipn app].
        now rewrite app_assoc.
      * intros [|n] b; cbn [nth_error].
        -- now intros [= <-].
        -- intros Hn. apply H2 in Hn.
           now replace (j + S n + 1) with (S j + n + 1) by lia.
      * intros Hok. cbn [List.length]. f_equal. exact (H3 Hok).
Qed.

(** A page that raises leaves the list as it found it. *)
Lemma processar_pagina_falha (nome q : string) (m : Modelo) (k : nat)
      (p : PaginaPDF) (s s' : Estado) (e : Excecao) :
  processar_pagina nome q m (k, p) s = (s', inl e) ->
  respostas_encontradas s' = respostas_encontradas s.
Proof.
  intros Hrun.
  destruct (processar_pagina_spec nome q m k p s) as (b & evs & Hef & _ & _ & Hz).
  rewrite Hrun in Hef, Hz. cbn [fst snd] in *.
  rewrite (ef_respostas _ _ _ _ Hef), (Hz e eq_refl). apply app_nil_r.
Qed.

(** A loop over the pages that raises did so on one page, after the pages
    before it had been handled in full; the list is the one those pages
    left. *)
Lemma laco_paginas_falha (nome q : string) (m : Modelo)
      (ps : list PaginaPDF) (j : nat) (sa sc : Estado) (e : Excecao) :
  para_cada (processar_pagina nome q m) (enumerate j ps) sa = (sc, inl e) ->
  exists ps1 p ps2 sb,
    ps = ps1 ++ p :: ps2 /\
    para_cada (processar_pagina nome q m) (enumerate j ps1) sa = (sb, inr tt) /\
    processar_pagina nome q m (j + List.length ps1, p) sb = (sc, inl e) /\
    respostas_encontradas sc = respostas_encontradas sb.
Proof.
  revert j sa. induction ps as [|p ps IH]; intros j sa;
    cbn [enumerate para_cada].
  - discriminate.
  - unfold bind.
    destruct (processar_pagina nome q m (j, p) sa) as [s1 [e1|[]]] eqn:E.
    + intros [= -> ->]. exists [], p, ps, sa. cbn. rewrite Nat.add_0_r.
      repeat split; auto. eapply processar_pagina_falha; eassumption.
    + intros Hrun. destruct (IH (S j) s1 Hrun)
        as (ps1 & p' & ps2 & sb & -> & H1 & H2 & H3).
      exists (p :: ps1), p', ps2, sb. cbn [app List.length].
      rewrite Nat.add_succ_r. repeat split; auto.
      cbn [enumerate]. now rewrite (para_cada_cons _ _ _ _ _ E).
Qed.

End Lacos.

(** * The claims *)

Section Propriedades.

Context {B : Bibliotecas}.

Local Open Scope py_scope.

(** Every candidate of the returned list is a candidate of one of the
    documents. *)
Lemma candidatos_dos_blocos (docs : list Documento)
      (blocos : list (list Resposta)) :
  Forall2 (fun d b => Forall (candidato_de d) b /\
                      StronglySorted ordem_paginas b) docs blocos ->
  Forall (fun c => exists d, In d docs /\ candidato_de d c)
         (List.concat blocos).
Proof.
  induction 1 as [|d b docs blocos [Hb _] _ IH]; cbn; [constructor|].
  apply Forall_app. split.
  - eapply Forall_impl; [|exact Hb]. intros c Hc. exists d. auto.
  - eapply Forall_impl; [|exact IH]. intros c (d' & Hd & Hc). exists d'. auto.
Qed.

(** The collection step always returns a list, and every candidate of it is
    a candidate of one of the documents. *)
Lemma processar_documentos_candidatos (docs : list Documento) (q : string)
      (m : Modelo) (s : Estado) :
  exists s' rs,
    processar_documentos docs q m s = (s', inr rs) /\
    cache s' = cache s /\
    Forall (fun c => exists d, In d docs /\ candidato_de d c) rs.
Proof.
  destruct (processar_documentos_spec docs q m s) as (s' & Hrun & Hc & Hall).
  eexists s', _. split; [exact Hrun|]. split; [exact Hc|].
  now apply candidatos_dos_blocos.
Qed.

(** C6. For an empty list of documents [processar_documentos] signals the
    warning of line 28 and returns the empty list: the log grows by that
    warning alone, so the model is run on no image and no library is called
    (the world is the one it started in). *)
Theorem C6_sem_documentos (q : string) (m : Modelo) (s : Estado) :
  processar_documentos [] q m s =
  (mkEstado (mundo s) (cache s)
            (eventos s ++ [EvWarning aviso_sem_documentos]) [],
   inr []).
Proof. reflexivity. Qed.



Lemma novas_mesma_lista (s s' t t' : Estado) :
  respostas_encontradas s = respostas_encontradas t ->
  respostas_encontradas s' = respostas_encontradas t' ->
  novas s s' = novas t t'.
Proof. intros H H'. unfold novas. now rewrite H, H'. Qed.

Lemma novas_nada (s s' : Estado) :
  respostas_encontradas s' = respostas_encontradas s -> novas s s' = [].
Proof. intros H. apply novas_app. now rewrite app_nil_r. Qed.





(** What stands under [try] for a PDF that was read and opened: the loop
    over the pages [fitz.open] returned, counted from 0. *)
Lemma tentativa_pdf (total : nat) (q : string) (m : Modelo) (i : nat)
      (d : Documento) (s : Estado) (w1 w2 : Mundo) (bytes_pdf : string)
      (doc_pdf : list PaginaPDF) :
  e_pdf (name d) = true ->
  doc_read d (mundo s) = (w1, inr bytes_pdf) ->
  fitz_open bytes_pdf w1 = (w2, inr doc_pdf) ->
  tentativa total q m (i, d) s =
  para_cada (processar_pagina (name d) q m) (enumerate 0 doc_pdf)
            (inicio_das_paginas total i d w2 s).
Proof.
  intros Hpdf Hread Hopen. unfold tentativa. rewrite bind_emitir, Hpdf.
  unfold ramo_pdf. rewrite bind_externo.
  cbn [mundo cache eventos respostas_encontradas com_evento]. rewrite Hread.
  rewrite bind_externo. cbn [mundo cache eventos respostas_encontradas].
  rewrite Hopen. unfold inicio_das_paginas, progresso_de. cbn [fst snd].
  now rewrite <- !app_assoc.
Qed.

(** A PDF that cannot be read or opened leaves the list as it found it. *)
Lemma tentativa_pdf_leitura (total : nat) (q : string) (m : Modelo) (i : nat)
      (d : Documento) (s : Estado) (w1 : Mundo) (e : Excecao) :
  e_pdf (name d) = true ->
  doc_read d (mundo s) = (w1, inl e) ->
  respostas_encontradas (fst (tentativa total q m (i, d) s)) =
    respostas_encontradas s /\
  snd (tentativa total q m (i, d) s) = inl e.
Proof.
  intros Hpdf Hread. unfold tentativa. rewrite bind_emitir, Hpdf.
  unfold ramo_pdf. rewrite bind_externo.
  cbn [mundo cache eventos respostas_encontradas com_evento].
  now rewrite Hread.
Qed.

Lemma tentativa_pdf_abertura (total : nat) (q : string) (m : Modelo) (i : nat)
      (d : Documento) (s : Estado) (w1 w2 : Mundo) (bytes_pdf : string)
      (e : Excecao) :
  e_pdf (name d) = true ->
  doc_read d (mundo s) = (w1, inr bytes_pdf) ->
  fitz_open bytes_pdf w1 = (w2, inl e) ->
  respostas_encontradas (fst (tentativa total q m (i, d) s)) =
    respostas_encontradas s /\
  snd (tentativa total q m (i, d) s) = inl e.
Proof.
  intros Hpdf Hread Hopen. unfold tentativa. rewrite bind_emitir, Hpdf.
  unfold ramo_pdf. rewrite bind_externo.
  cbn [mundo cache eventos respostas_encontradas com_evento]. rewrite Hread.
  rewrite bind_externo. cbn [mundo cache eventos respostas_encontradas].
  now rewrite Hopen.
Qed.



(** C9. A document whose lowercased name ends neither in [.pdf] nor in an
    image suffix only has its progress reported: its iteration returns
    without an exception, appends no candidate, logs no warning and no
    error, calls no library, and the loop goes on with the documents that
    follow. *)
Theorem C9_extensao_desconhecida (total : nat) (q : string) (m : Modelo)
        (i : nat) (d : Documento) (s : Estado) :
  e_pdf (name d) = false -> e_imagem (name d) = false ->
  let s1 := com_evento s (EvProgress (i + 1) total ("Analisando: " ++ name d)) in
  processar_documento total q m (i, d) s = (s1, inr tt) /\
  novas s s1 = [] /\
  existsb ev_aviso (novos_eventos s s1) = false /\
  mundo s1 = mundo s /\
  forall rest,
    para_cada (processar_documento total q m) ((i, d) :: rest) s =
    para_cada (processar_documento total q m) rest s1.
Proof.
  intros Hpdf Himg s1.
  assert (Hrun : processar_documento total q m (i, d) s = (s1, inr tt)).
  { unfold processar_documento, tentar, tentativa. rewrite bind_emitir.
    now rewrite Hpdf, Himg. }
  pose proof (Efeito_com_evento s
                (EvProgress (i + 1) total ("Analisando: " ++ name d))) as Hef.
  fold s1 in Hef.
  split; [exact Hrun|]. split; [|split; [|split]].
  - apply (Efeito_novas _ _ _ _ Hef).
  - now rewrite (Efeito_novos_eventos _ _ _ _ Hef).
  - reflexivity.
  - intros rest. now apply para_cada_cons.
Qed.

Lemma In_ev_paginas (e : Evento) (evs : list Evento) :
  Forall (fun e => ev_paginas e = true) evs -> In e evs -> ev_paginas e = true.
Proof. intros H Hin. rewrite Forall_forall in H. auto. Qed.

(** C10. The branch is chosen on the lowercased file name: the iteration
    of a document reads it as a PDF (the first call of the PDF branch)
    exactly when the lowercased name ends in [.pdf], and opens it as an
    image (the first call of the image branch) exactly when the lowercased
    name ends in [.png], [.jpg] or [.jpeg]; ["SCAN.PDF"] is a PDF. *)
Theorem C10_despacho_por_extensao (total : nat) (q : string) (m : Modelo)
        (i : nat) (d : Documento) (s : Estado) :
  let evs := novos_eventos s (fst (processar_documento total q m (i, d) s)) in
  let s1 := com_evento s (EvProgress (i + 1) total ("Analisando: " ++ name d)) in
  (In (EvRead (name d)) evs <->
   PyStr.endswith (PyStr.lower (name d)) ".pdf" = true) /\
  (In (EvImageOpen (name d)) evs <->
   PyStr.endswith (PyStr.lower (name d)) ".png" = true \/
   PyStr.endswith (PyStr.lower (name d)) ".jpg" = true \/
   PyStr.endswith (PyStr.lower (name d)) ".jpeg" = true) /\
  (PyStr.endswith (PyStr.lower (name d)) ".pdf" = true ->
   tentativa total q m (i, d) s = ramo_pdf d (name d) q m s1) /\
  (PyStr.endswith (PyStr.lower (name d)) ".png" = true \/
   PyStr.endswith (PyStr.lower (name d)) ".jpg" = true \/
   PyStr.endswith (PyStr.lower (name d)) ".jpeg" = true ->
   tentativa total q m (i, d) s = ramo_imagem d (name d) q m s1) /\
  PyStr.endswith (PyStr.lower "SCAN.PDF") ".pdf" = true.
Proof.
  intros evs s1.
  assert (Himg : e_imagem (name d) = true <->
                 PyStr.endswith (PyStr.lower (name d)) ".png" = true \/
                 PyStr.endswith (PyStr.lower (name d)) ".jpg" = true \/
                 PyStr.endswith (PyStr.lower (name d)) ".jpeg" = true).
  { unfold e_imagem, PyStr.endswith_tuple. cbn [existsb].
    rewrite !orb_true_iff. intuition discriminate. }
  fold (e_pdf (name d)). rewrite <- Himg.
  destruct (processar_documento_spec total q m i d s)
    as (_ & b & evs' & erro & Hef & _ & He & _ & Herro).
  subst evs. rewrite (Efeito_novos_eventos _ _ _ _ Hef).
  pose proof (e_pdf_nao_imagem (name d)) as Hex.
  assert (Hr : forall n, ~ In (EvRead n) (evs' ++ erro)).
  { intros n Hin. apply in_app_or in Hin as [Hin|Hin].
    - now apply (In_ev_paginas _ _ He) in Hin.
    - destruct Herro as [->|[e ->]]; [easy|]. now destruct Hin. }
  assert (Ho : forall n, ~ In (EvImageOpen n) (evs' ++ erro)).
  { intros n Hin. apply in_app_or in Hin as [Hin|Hin].
    - now apply (In_ev_paginas _ _ He) in Hin.
    - destruct Herro as [->|[e ->]]; [easy|]. now destruct Hin. }
  split; [|split; [|split; [|split]]].
  - destruct (e_pdf (name d)); [cbn; intuition|].
    split; [|discriminate]. intros [Hin|Hin]; [discriminate|].
    destruct (e_imagem (name d)); cbn in Hin.
    + destruct Hin as [Hin|Hin]; [discriminate|]. now apply Hr in Hin.
    + now apply Hr in Hin.
  - destruct (e_pdf (name d)).
    + rewrite Hex by reflexivity. split; [|discriminate].
      intros [Hin|[Hin|Hin]]; try discriminate. now apply Ho in Hin.
    + destruct (e_imagem (name d)); [cbn; intuition|].
      split; [|discriminate]. intros [Hin|Hin]; [discriminate|].
      now apply Ho in Hin.
  - intros H. unfold tentativa. rewrite bind_emitir. now rewrite H.
  - intros H. unfold tentativa. rewrite bind_emitir.
    destruct (e_pdf (name d)); [|now rewrite H].
    rewrite Hex in H by reflexivity. discriminate.
  - reflexivity.
Qed.

(** C8. Once a call of [carregar_modelo_qa] has returned a model, that
    model is what the cache holds, and every later call, from any state
    that still holds it, returns that same model and changes nothing: no
    load, no event.  The pipeline is built by the call that found the cache
    empty, and by that call only. *)
Theorem C8_modelo_em_cache (s s1 : Estado) (m : Modelo) :
  carregar_modelo_qa s = (s1, inr m) ->
  cache s1 = Some m /\
  carregar_modelo_qa s1 = (s1, inr m) /\
  (forall s2, cache s2 = Some m -> carregar_modelo_qa s2 = (s2, inr m)) /\
  novos_eventos s s1 =
    match cache s with None => [EvPipeline] | Some _ => [] end.
Proof.
  intros Hrun.
  destruct (carregar_modelo_qa_retorna s s1 m Hrun) as (Hc & _ & Hev).
  split; [exact Hc|]. split; [now apply carregar_modelo_qa_cache|].
  split; [intros s2; apply carregar_modelo_qa_cache|].
  now apply novos_eventos_app.
Qed.

(** C2, as the code has it, with the handler of line 80.  When what
    stands under [try] raises [e] for a document: if [e] derives from
    [Exception] it is caught by the [except] of that iteration and reported
    as one error that carries the file name, the iteration returns and the
    loop goes on with the documents that follow; if it does not, it is not
    caught and leaves the loop.  What the failing document has left in the
    list are candidates of its own.  It has left none when it is not a PDF,
    when it could not be read, and when it could not be opened.  When it
    was read and opened, the pages [fitz.open] returned are some pages that
    were handled in full, then the page that raised, then the rest; the
    document has left exactly what the pages before the one that raised had
    added, and so none when the first page raised. *)
Theorem C2_falha_por_documento (e_exception : Excecao -> bool)
        (total : nat) (q : string) (m : Modelo)
        (i : nat) (d : Documento) (s s1 : Estado) (e : Excecao) :
  tentativa total q m (i, d) s = (s1, inl e) ->
  let f := ExceptException.processar_documento e_exception total q m in
  let s2 := com_evento s1 (EvError (mensagem_erro d e)) in
  (e_exception e = true ->
   f (i, d) s = (s2, inr tt) /\
   forall rest, para_cada f ((i, d) :: rest) s = para_cada f rest s2) /\
  (e_exception e = false ->
   f (i, d) s = (s1, inl e) /\
   forall rest, para_cada f ((i, d) :: rest) s = (s1, inl e)) /\
  Forall (candidato_de d) (novas s s1) /\
  novas s (fst (f (i, d) s)) = novas s s1 /\
  (e_pdf (name d) = false -> novas s s1 = []) /\
  (e_pdf (name d) = true ->
   match doc_read d (mundo s) with
   | (_, inl _) => novas s s1 = []
   | (w1, inr bytes_pdf) =>
       match fitz_open bytes_pdf w1 with
       | (_, inl _) => novas s s1 = []
       | (w2, inr doc_pdf) =>
           let sl := inicio_das_paginas total i d w2 s in
           exists ps1 p ps2 sb,
             doc_pdf = ps1 ++ p :: ps2 /\
             para_cada (processar_pagina (name d) q m) (enumerate 0 ps1) sl
               = (sb, inr tt) /\
             processar_pagina (name d) q m (List.length ps1, p) sb
               = (s1, inl e) /\
             novas s s1 =
               List.concat (contribuicoes (processar_pagina (name d) q m)
                                          (enumerate 0 ps1) sl) /\
             (ps1 = [] -> novas s s1 = [])
       end
   end).
Proof.
  intros Hrun f s2.
  destruct (tentativa_spec total q m i d s) as (b & evs & Hef & Hb & _ & _ & Hz).
  rewrite Hrun in Hef, Hz. cbn [fst snd] in *.
  pose proof (Efeito_novas _ _ _ _ Hef) as Hnovas.
  assert (Hf : forall r, e_exception e = r ->
                         f (i, d) s = if r then (s2, inr tt) else (s1, inl e)).
  { intros r Hr. subst f s2.
    unfold ExceptException.processar_documento, ExceptException.tentar.
    rewrite Hrun, Hr. now destruct r. }
  split; [|split; [|split; [|split; [|split]]]].
  - intros Hex. pose proof (Hf true Hex) as Hdoc. cbv iota in Hdoc.
    split; [exact Hdoc|]. intros rest. now apply para_cada_cons.
  - intros Hex. pose proof (Hf false Hex) as Hdoc. cbv iota in Hdoc.
    split; [exact Hdoc|]. intros rest. cbn [para_cada]. unfold bind.
    now rewrite Hdoc.
  - now rewrite Hnovas.
  - rewrite (Hf _ eq_refl). destruct (e_exception e); [|reflexivity].
    cbn [fst]. now apply novas_mesma_lista.
  - intros Hpdf. rewrite Hnovas. eauto.
  - intros Hpdf.
    destruct (doc_read d (mundo s)) as [w1 [e1|bytes_pdf]] eqn:Hread.
    { destruct (tentativa_pdf_leitura total q m i d s w1 e1 Hpdf Hread)
        as [H _].
      rewrite Hrun in H. now apply novas_nada. }
    destruct (fitz_open bytes_pdf w1) as [w2 [e2|doc_pdf]] eqn:Hopen.
    { destruct (tentativa_pdf_abertura total q m i d s w1 w2 bytes_pdf e2
                  Hpdf Hread Hopen) as [H _].
      rewrite Hrun in H. now apply novas_nada. }
    cbv zeta. set (sl := inicio_das_paginas total i d w2 s).
    rewrite (tentativa_pdf total q m i d s w1 w2 bytes_pdf doc_pdf
               Hpdf Hread Hopen) in Hrun.
    fold sl in Hrun.
    apply laco_paginas_falha in Hrun
      as (ps1 & p & ps2 & sb & Hps & H1 & H2 & H3).
    exists ps1, p, ps2, sb.
    assert (Hcontrib :
              novas s s1 =
              List.concat (contribuicoes (processar_pagina (name d) q m)
                                         (enumerate 0 ps1) sl)).
    { destruct (laco_paginas_blocos (name d) q m ps1 0 sl) as (Hb1 & _).
      rewrite H1 in Hb1. cbn [fst] in Hb1. rewrite <- Hb1.
      now apply novas_mesma_lista. }
    split; [exact Hps|]. split; [exact H1|]. split; [exact H2|].
    split; [exact Hcontrib|].
    intros ->. now rewrite Hcontrib.
Qed.

(** C1, as the code has it. In a run of the script in which the button
    was pressed, the question is empty and [carregar_modelo_qa] returned,
    the warning of line 125 is signalled and that is all that follows the
    widgets: no document is read or decoded and the model is run on no
    image.  [carregar_modelo_qa] itself is called before the question is
    looked at (line 93), and builds the pipeline when the cache is empty. *)
Theorem C1_pergunta_vazia (inp : Entrada) (s s1 : Estado) (m : Modelo) :
  botao inp = true -> pergunta_usuario inp = "" ->
  carregar_modelo_qa (fst (cabecalho s)) = (s1, inr m) ->
  script inp s =
    (com_eventos s1 [EvFileUploader; EvTextInput; EvButton;
                     EvWarning aviso_sem_pergunta], inr tt) /\
  novos_eventos s (fst (script inp s)) =
    [EvSetPageConfig; EvTitle; EvMarkdownIntro]
    ++ match cache s with None => [EvPipeline] | Some _ => [] end
    ++ [EvFileUploader; EvTextInput; EvButton; EvWarning aviso_sem_pergunta] /\
  existsb ev_normalizer (novos_eventos s (fst (script inp s))) = false /\
  existsb ev_inferencia (novos_eventos s (fst (script inp s))) = false.
Proof.
  intros Hb Hq Hload. rewrite cabecalho_run in Hload. cbn [fst] in Hload.
  assert (Hrun : script inp s =
                 (com_eventos s1 [EvFileUploader; EvTextInput; EvButton;
                                  EvWarning aviso_sem_pergunta], inr tt)).
  { unfold script.
    rewrite (bind_ok _ _ _ _ _ (cabecalho_run s)).
    rewrite (bind_ok _ _ _ _ _ Hload).
    rewrite (bind_ok _ _ _ _ _ (widgets_run s1)).
    rewrite Hb, Hq. cbn [String.eqb negb].
    now rewrite emitir_run, com_evento_eventos, com_eventos_app. }
  destruct (carregar_modelo_qa_retorna _ _ _ Hload) as (_ & _ & Hev).
  cbn [cache eventos com_eventos] in Hev.
  assert (Hnovos : novos_eventos s (fst (script inp s)) =
    [EvSetPageConfig; EvTitle; EvMarkdownIntro]
    ++ match cache s with None => [EvPipeline] | Some _ => [] end
    ++ [EvFileUploader; EvTextInput; EvButton; EvWarning aviso_sem_pergunta]).
  { rewrite Hrun. apply novos_eventos_app. cbn [fst eventos com_eventos].
    rewrite Hev. now rewrite <- !app_assoc. }
  split; [exact Hrun|]. split; [exact Hnovos|].
  rewrite Hnovos. now destruct (cache s).
Qed.



End Propriedades.

(** * The claims on the small world *)

Section Exemplos.

Import Exemplo.

(** A PDF of three pages is answered under the page identifiers 1, 2, 3,
    in that order, and an upper-case extension is the PDF one. *)
Example scan_tres_paginas :
  snd (processar_documentos [scan] "q" 0 carregado) =
  inr [mkResposta "SCAN.PDF" (PaginaNum 1) "alfa" 0.9%float;
       mkResposta "SCAN.PDF" (PaginaNum 2) "beta" 0.5%float;
       mkResposta "SCAN.PDF" (PaginaNum 3) "gama" 0.9%float].
Proof. vm_compute. reflexivity. Qed.

(** A score that is not a number does not pass the filter, and neither
    does a score of exactly 0.01. *)
Example nan_e_limiar_filtrados :
  respostas_filtradas
    [mkBruto "nada" nan; mkBruto "limiar" 0.01%float; mkBruto "alfa" 0.9%float]
  = [mkBruto "alfa" 0.9%float].
Proof. vm_compute. reflexivity. Qed.

(** Equal scores are displayed in the order of collection. *)
Example empate_estavel :
  map (fun c => (arquivo c, pagina c))
      (respostas_ordenadas
         [mkResposta "foto.png" PaginaNA "beta" 0.5%float;
          mkResposta "SCAN.PDF" (PaginaNum 1) "alfa" 0.9%float;
          mkResposta "SCAN.PDF" (PaginaNum 2) "beta" 0.5%float;
          mkResposta "SCAN.PDF" (PaginaNum 3) "gama" 0.9%float])
  = [("SCAN.PDF", PaginaNum 1); ("SCAN.PDF", PaginaNum 3);
     ("foto.png", PaginaNA); ("SCAN.PDF", PaginaNum 2)].
Proof. vm_compute. reflexivity. Qed.

(** C1 fails as it is written: in a fresh process, a run with the button
    pressed and an empty question signals the warning but has called
    [carregar_modelo_qa], which built the pipeline. *)
Lemma C1_contraexemplo :
  let inp := mkEntrada [relatorio] "" true in
  let evs := novos_eventos inicio (fst (script inp inicio)) in
  botao inp = true /\ pergunta_usuario inp = "" /\
  evs = [EvSetPageConfig; EvTitle; EvMarkdownIntro; EvPipeline;
         EvFileUploader; EvTextInput; EvButton;
         EvWarning aviso_sem_pergunta] /\
  ~ (In (EvWarning aviso_sem_pergunta) evs /\
     existsb ev_normalizer evs = false /\
     existsb ev_inferencia evs = false /\
     existsb ev_carga evs = false).
Proof.
  cbv zeta. split; [reflexivity|]. split; [reflexivity|].
  split; [reflexivity|]. intros (_ & _ & _ & H). vm_compute in H.
  discriminate.
Qed.

(** A run with an empty question in a fresh process. *)
Lemma C1_pergunta_vazia_witness :
  let inp := mkEntrada [relatorio] "" true in
  botao inp = true /\ pergunta_usuario inp = "" /\
  script inp inicio =
    (com_eventos pronto
                 [EvFileUploader; EvTextInput; EvButton;
                  EvWarning aviso_sem_pergunta], inr tt).
Proof.
  cbv zeta. split; [reflexivity|]. split; [reflexivity|].
  exact (proj1 (C1_pergunta_vazia (mkEntrada [relatorio] "" true) inicio
                  pronto 0 eq_refl eq_refl eq_refl)).
Defined.

(** C2 fails as it is written: the model raises on the second page of
    [relatorio.pdf]; the error is reported under the file name, and the
    candidate of the first page is in the returned list. *)
Lemma C2_contraexemplo :
  snd (tentativa 1 "q" 0 (0, relatorio) carregado) = inl "inference failed" /\
  In (EvError "Erro ao processar o arquivo relatorio.pdf: inference failed")
     (eventos (fst (processar_documentos [relatorio] "q" 0 carregado))) /\
  snd (processar_documentos [relatorio] "q" 0 carregado) =
    inr [mkResposta "relatorio.pdf" (PaginaNum 1) "alfa" 0.9%float] /\
  novas carregado (fst (processar_documento 1 "q" 0 (0, relatorio) carregado))
    <> [].
Proof.
  split; [vm_compute; reflexivity|]. split; [|split].
  - vm_compute. intuition.
  - vm_compute. reflexivity.
  - vm_compute. discriminate.
Qed.

(** The failing PDF of the counterexample, in the loop: what the model
    raised derives from [Exception]. *)
Lemma C2_falha_por_documento_witness :
  snd (tentativa 1 "q" 0 (0, relatorio) carregado) = inl "inference failed" /\
  ExemploInterrupcao.e_exception "inference failed" = true /\
  ExceptException.processar_documento ExemploInterrupcao.e_exception
    1 "q" 0 (0, relatorio) carregado =
    (com_evento (fst (tentativa 1 "q" 0 (0, relatorio) carregado))
                (EvError (mensagem_erro relatorio "inference failed")),
     inr tt).
Proof.
  split; [vm_compute; reflexivity|]. split; [reflexivity|].
  refine (proj1 (proj1 (@C2_falha_por_documento bibliotecas
                   ExemploInterrupcao.e_exception 1 "q" 0 0 relatorio
                   carregado
                   (fst (tentativa 1 "q" 0 (0, relatorio) carregado))
                   "inference failed" _) eq_refl)).
  vm_compute. reflexivity.
Defined.

(** The second call of [carregar_modelo_qa] in a process. *)
Lemma C8_modelo_em_cache_witness :
  carregar_modelo_qa inicio = (primeira_carga, inr 0) /\
  carregar_modelo_qa primeira_carga = (primeira_carga, inr 0).
Proof.
  split; [reflexivity|].
  exact (proj1 (proj2 (C8_modelo_em_cache inicio primeira_carga 0 eq_refl))).
Defined.

(** [notas.txt], third of four documents. *)
Lemma C9_extensao_desconhecida_witness :
  e_pdf (name notas) = false /\ e_imagem (name notas) = false /\
  processar_documento 4 "q" 0 (2, notas) carregado =
    (com_evento carregado (EvProgress 3 4 "Analisando: notas.txt"), inr tt).
Proof.
  split; [reflexivity|]. split; [reflexivity|].
  exact (proj1 (C9_extensao_desconhecida 4 "q" 0 2 notas carregado
                  eq_refl eq_refl)).
Defined.


End Exemplos.

(** * Further properties of the script *)

(** ** The order of floats is transitive *)

Module PyFloatOrdem.

Import PyFloat.





End PyFloatOrdem.

(** ** What a computation may log *)

Section Emissao.

Context {B : Bibliotecas}.

Local Open Scope py_scope.

Lemma so_emite_ret {A} (P : Evento -> Prop) (a : A) : so_emite P (ret a).
Proof. intros s. exists []. cbn. now rewrite app_nil_r. Qed.

Lemma so_emite_bind {A C} (P : Evento -> Prop) (mm : M A) (f : A -> M C) :
  so_emite P mm -> (forall a, so_emite P (f a)) -> so_emite P (bind mm f).
Proof.
  intros Hm Hf s. destruct (Hm s) as (e1 & H1 & F1). unfold bind.
  destruct (mm s) as [s1 [e|a]]; cbn [fst] in *.
  - now exists e1.
  - destruct (Hf a s1) as (e2 & H2 & F2). exists (e1 ++ e2).
    rewrite H2, H1, app_assoc. split; [reflexivity|].
    apply Forall_app. now split.
Qed.

Lemma so_emite_tentar {A} (P : Evento -> Prop) (mm : M A)
      (h : Excecao -> M A) :
  so_emite P mm -> (forall e, so_emite P (h e)) -> so_emite P (tentar mm h).
Proof.
  intros Hm Hh s. destruct (Hm s) as (e1 & H1 & F1). unfold tentar.
  destruct (mm s) as [s1 [e|a]]; cbn [fst] in *.
  - destruct (Hh e s1) as (e2 & H2 & F2). exists (e1 ++ e2).
    rewrite H2, H1, app_assoc. split; [reflexivity|].
    apply Forall_app. now split.
  - now exists e1.
Qed.

Lemma so_emite_emitir (P : Evento -> Prop) (ev : Evento) :
  P ev -> so_emite P (emitir ev).
Proof. intros H s. exists [ev]. cbn. auto. Qed.

Lemma so_emite_externo {A} (P : Evento -> Prop) (ev : Evento)
      (f : Mundo -> Mundo * (Excecao + A)) :
  P ev -> so_emite P (externo ev f).
Proof.
  intros H s. exists [ev]. unfold externo.
  destruct (f (mundo s)) as [w r]. cbn. auto.
Qed.

Lemma so_emite_para_cada {A} (P : Evento -> Prop) (f : A -> M unit)
      (l : list A) :
  (forall x, In x l -> so_emite P (f x)) -> so_emite P (para_cada f l).
Proof.
  induction l as [|x l IH]; intros H; cbn [para_cada].
  - apply so_emite_ret.
  - apply so_emite_bind; [apply H; now left|].
    intros _. apply IH. intros y Hy. apply H. now right.
Qed.

Lemma so_emite_append_resposta (P : Evento -> Prop) (r : Resposta) :
  so_emite P (append_resposta r).
Proof. intros s. exists []. cbn. now rewrite app_nil_r. Qed.

Lemma so_emite_nova_lista (P : Evento -> Prop) : so_emite P nova_lista.
Proof. intros s. exists []. cbn. now rewrite app_nil_r. Qed.

Lemma so_emite_ler_lista (P : Evento -> Prop) : so_emite P ler_lista.
Proof. intros s. exists []. cbn. now rewrite app_nil_r. Qed.

Lemma so_emite_novos {A} (P : Evento -> Prop) (mm : M A) (s : Estado) :
  so_emite P mm -> Forall P (novos_eventos s (fst (mm s))).
Proof.
  intros H. destruct (H s) as (evs & Hev & F).
  now rewrite (novos_eventos_app _ _ _ Hev).
Qed.

Lemma In_enumerate {A} (j : nat) (l : list A) (i : nat) (x : A) :
  In (i, x) (enumerate j l) -> j <= i < j + List.length l /\ In x l.
Proof.
  revert j. induction l as [|y l IH]; intros j; cbn; [easy|].
  intros [[= <- <-]|H].
  - split; [lia|now left].
  - apply IH in H as [H1 H2]. split; [lia|now right].
Qed.

(** The steps of one page log page events and the question. *)
Lemma processar_pagina_emite (docs : list Documento) (nome q : string)
      (m : Modelo) (np : nat * PaginaPDF) :
  so_emite (evento_da_coleta docs q) (processar_pagina nome q m np).
Proof.
  destruct np as [k p]. unfold processar_pagina.
  apply so_emite_bind; [now apply so_emite_externo|]. intros pix.
  apply so_emite_bind; [now apply so_emite_externo|]. intros img_bytes.
  apply so_emite_bind; [now apply so_emite_externo|]. intros imagem.
  apply so_emite_bind; [now apply so_emite_externo|]. intros resultado.
  apply so_emite_para_cada. intros res _. apply so_emite_append_resposta.
Qed.

(** The iteration of a document of the batch logs events of the batch. *)
Lemma processar_documento_emite (docs : list Documento) (q : string)
      (m : Modelo) (i : nat) (d : Documento) :
  In d docs -> i < List.length docs ->
  so_emite (evento_da_coleta docs q)
           (processar_documento (List.length docs) q m (i, d)).
Proof.
  intros Hd Hi. unfold processar_documento. apply so_emite_tentar.
  - unfold tentativa. apply so_emite_bind.
    + apply so_emite_emitir. cbn. split; [lia|]. split; [reflexivity|].
      now exists d.
    + intros _. destruct (e_pdf (name d)) eqn:Epdf;
        [|destruct (e_imagem (name d)) eqn:Eimg].
      * unfold ramo_pdf.
        apply so_emite_bind.
        { apply so_emite_externo. cbn. now exists d. }
        intros bytes_pdf.
        apply so_emite_bind; [now apply so_emite_externo|]. intros doc_pdf.
        apply so_emite_para_cada. intros np _.
        apply processar_pagina_emite.
      * unfold ramo_imagem.
        apply so_emite_bind.
        { apply so_emite_externo. cbn. now exists d. }
        intros imagem.
        apply so_emite_bind; [now apply so_emite_externo|]. intros resultado.
        apply so_emite_para_cada. intros res _. apply so_emite_append_resposta.
      * apply so_emite_ret.
  - intros e. apply so_emite_emitir. cbn. now exists d, e.
Qed.

Lemma processar_documentos_emite (docs : list Documento) (q : string)
      (m : Modelo) :
  so_emite (evento_da_coleta docs q) (processar_documentos docs q m).
Proof.
  unfold processar_documentos.
  apply so_emite_bind; [apply so_emite_nova_lista|]. intros _.
  destruct docs as [|d0 docs'].
  - apply so_emite_bind; [now apply so_emite_emitir|]. intros _.
    apply so_emite_ret.
  - set (docs := d0 :: docs').
    apply so_emite_bind; [now apply so_emite_emitir|]. intros _.
    apply so_emite_bind.
    + apply so_emite_para_cada. intros [i d] Hin.
      apply In_enumerate in Hin as [Hi Hd].
      apply processar_documento_emite; [exact Hd|lia].
    + intros _. apply so_emite_bind; [now apply so_emite_emitir|]. intros _.
      apply so_emite_ler_lista.
Qed.

(** X1. Whatever the documents, the question and the libraries do, every
    event the collection step logs belongs to the batch: progress reports
    of its documents, numbered from 1 to their count; reads and image
    openings of its files, each in the branch of its extension; the page
    steps; runs of the model on the question it was given and no other;
    errors tagged with one of its file names; and a warning only when the
    batch is empty.  It never loads the pipeline, draws a widget or renders
    an answer. *)
Theorem X1_registo_da_coleta (docs : list Documento) (q : string)
        (m : Modelo) (s : Estado) :
  Forall (evento_da_coleta docs q)
         (novos_eventos s (fst (processar_documentos docs q m s))).
Proof. apply so_emite_novos, processar_documentos_emite. Qed.

End Emissao.

(** ** The collection step, further *)

Section Coleta.

Context {B : Bibliotecas}.

Local Open Scope py_scope.




(** X4. An image file whose opening and whose inference return
    contributes one candidate for each record of the model above the
    threshold, in the order of the model, with the text and the score of the
    record unchanged, under its file name and the page ["N/A"]; records that
    repeat are not merged.  The log grows by the progress report, the
    opening and one run of the model. *)
Theorem X4_imagem_respondida (total : nat) (q : string) (m : Modelo)
        (i : nat) (d : Documento) (s : Estado)
        (w1 w2 : Mundo) (imagem : Imagem) (resultado : list Bruto) :
  e_pdf (name d) = false -> e_imagem (name d) = true ->
  image_open d (mundo s) = (w1, inr imagem) ->
  modelo_call m imagem q w1 = (w2, inr resultado) ->
  processar_documento total q m (i, d) s =
    (mkEstado w2 (cache s)
       (eventos s ++ [progresso_de total (i, d); EvImageOpen (name d);
                      EvModeloQA q])
       (respostas_encontradas s ++
        map (candidato (name d) PaginaNA) (respostas_filtradas resultado)),
     inr tt).
Proof.
  intros Hpdf Himg Hopen Hcall.
  unfold processar_documento, tentar, tentativa. rewrite bind_emitir.
  rewrite Hpdf, Himg. unfold ramo_imagem.
  rewrite bind_externo. cbn [mundo cache eventos respostas_encontradas com_evento].
  rewrite Hopen. rewrite bind_externo.
  cbn [mundo cache eventos respostas_encontradas]. rewrite Hcall.
  rewrite para_cada_append. cbn [mundo cache eventos respostas_encontradas].
  unfold progresso_de. cbn [fst snd]. now rewrite <- !app_assoc.
Qed.

(** X5. A page of a PDF whose rasterisation and whose inference return
    contributes one candidate for each record of the model above the
    threshold, in the order of the model, with the text and the score of the
    record unchanged, under the file name and the page index plus one. *)
Theorem X5_pagina_respondida (nome q : string) (m : Modelo)
        (k : nat) (p : PaginaPDF) (s : Estado)
        (w1 w2 w3 w4 : Mundo) (pix : Pixmap) (img_bytes : string)
        (imagem : Imagem) (resultado : list Bruto) :
  get_pixmap p (mundo s) = (w1, inr pix) ->
  tobytes pix w1 = (w2, inr img_bytes) ->
  image_open_bytes img_bytes w2 = (w3, inr imagem) ->
  modelo_call m imagem q w3 = (w4, inr resultado) ->
  processar_pagina nome q m (k, p) s =
    (mkEstado w4 (cache s)
       (eventos s ++ [EvGetPixmap k; EvToBytes; EvImageOpenBytes; EvModeloQA q])
       (respostas_encontradas s ++
        map (candidato nome (PaginaNum (k + 1))) (respostas_filtradas resultado)),
     inr tt).
Proof.
  intros H1 H2 H3 H4. unfold processar_pagina.
  rewrite bind_externo, H1. rewrite bind_externo.
  cbn [mundo cache eventos respostas_encontradas]. rewrite H2.
  rewrite bind_externo. cbn [mundo cache eventos respostas_encontradas].
  rewrite H3. rewrite bind_externo.
  cbn [mundo cache eventos respostas_encontradas]. rewrite H4.
  rewrite para_cada_append. cbn [mundo cache eventos respostas_encontradas].
  now rewrite <- !app_assoc.
Qed.

(** X6. A PDF that opens with no page is accepted in silence: it is read
    and opened, the model is not run, no candidate is appended and no error
    is reported. *)
Theorem X6_pdf_sem_paginas (total : nat) (q : string) (m : Modelo)
        (i : nat) (d : Documento) (s : Estado)
        (w1 w2 : Mundo) (bytes_pdf : string) :
  e_pdf (name d) = true ->
  doc_read d (mundo s) = (w1, inr bytes_pdf) ->
  fitz_open bytes_pdf w1 = (w2, inr []) ->
  processar_documento total q m (i, d) s =
    (mkEstado w2 (cache s)
       (eventos s ++ [progresso_de total (i, d); EvRead (name d); EvFitzOpen])
       (respostas_encontradas s),
     inr tt).
Proof.
  intros Hpdf Hread Hopen.
  unfold processar_documento, tentar, tentativa. rewrite bind_emitir.
  rewrite Hpdf. unfold ramo_pdf.
  rewrite bind_externo. cbn [mundo cache eventos respostas_encontradas com_evento].
  rewrite Hread. rewrite bind_externo.
  cbn [mundo cache eventos respostas_encontradas]. rewrite Hopen.
  cbn [enumerate para_cada]. unfold ret, progresso_de. cbn [fst snd].
  now rewrite <- !app_assoc.
Qed.


End Coleta.

(** ** Runs of the script *)

Section Execucao.

Context {B : Bibliotecas}.

Local Open Scope py_scope.

Lemma existsb_Forall_false {A} (f : A -> bool) (l : list A) :
  Forall (fun e => f e = false) l -> existsb f l = false.
Proof.
  induction 1 as [|e l He _ IH]; [reflexivity|]. cbn. now rewrite He, IH.
Qed.

Lemma coleta_sem_carga (docs : list Documento) (q : string) (evs : list Evento) :
  Forall (evento_da_coleta docs q) evs ->
  Forall (fun e => ev_carga e = false) evs.
Proof.
  intros H. eapply Forall_impl; [|exact H]. intros e He. now destruct e.
Qed.

Lemma linhas_apresentacao (l : list Resposta) :
  Forall (fun e => ev_apresentacao e = true) (flat_map linhas l).
Proof.
  induction l as [|r l IH]; cbn; [constructor|]. repeat constructor. exact IH.
Qed.

(** A call of [carregar_modelo_qa] raises only when the cache is empty and
    the pipeline raises; the cache stays empty. *)
Lemma carregar_modelo_qa_falha (s s1 : Estado) (e : Excecao) :
  carregar_modelo_qa s = (s1, inl e) ->
  cache s = None /\ cache s1 = None /\
  respostas_encontradas s1 = respostas_encontradas s /\
  eventos s1 = eventos s ++ [EvPipeline].
Proof.
  intros Hrun. unfold carregar_modelo_qa, cache_resource in Hrun.
  unfold bind at 1 in Hrun. unfold ler_cache at 1 in Hrun.
  destruct (cache s) as [m0|] eqn:Ec; [discriminate|].
  rewrite bind_externo in Hrun.
  destruct (pipeline (mundo s)) as [w [e1|m1]]; [|discriminate].
  injection Hrun as <- <-. cbn. auto.
Qed.

(** Whatever the cache holds, a call on an empty cache asks for the
    pipeline. *)
Lemma carregar_modelo_qa_vazio (s : Estado) :
  cache s = None ->
  eventos (fst (carregar_modelo_qa s)) = eventos s ++ [EvPipeline].
Proof.
  intros Hc. unfold carregar_modelo_qa, cache_resource.
  unfold bind at 1. unfold ler_cache at 1. rewrite Hc.
  rewrite bind_externo. now destruct (pipeline (mundo s)) as [w [e|m]].
Qed.

Lemma script_falha (inp : Entrada) (s s1 : Estado) (e : Excecao) :
  carregar_modelo_qa (fst (cabecalho s)) = (s1, inl e) ->
  script inp s = (s1, inl e).
Proof.
  intros Hload. rewrite cabecalho_run in Hload. cbn [fst] in Hload.
  unfold script. rewrite (bind_ok _ _ _ _ _ (cabecalho_run s)).
  unfold bind at 1. now rewrite Hload.
Qed.

(** What follows the load in a run with a question: the collection step,
    the subheader, and the sorted answers or the message that there is
    none. *)
Lemma script_com_pergunta (inp : Entrada) (s sa : Estado) (m : Modelo) :
  botao inp = true -> (pergunta_usuario inp =? "")%string = false ->
  carregar_modelo_qa (fst (cabecalho s)) = (sa, inr m) ->
  exists sb rs evs,
    processar_documentos (documentos_carregados inp) (pergunta_usuario inp) m
      (com_eventos sa [EvFileUploader; EvTextInput; EvButton; EvSpinner])
      = (sb, inr rs) /\
    cache sb = cache sa /\
    eventos sb =
      eventos sa ++ [EvFileUploader; EvTextInput; EvButton; EvSpinner] ++ evs /\
    Forall (evento_da_coleta (documentos_carregados inp)
                             (pergunta_usuario inp)) evs /\
    script inp s =
      (com_eventos sb
         (EvSubheader ::
          match rs with
          | [] => [EvInfo info_sem_resposta]
          | _ :: _ => flat_map linhas (respostas_ordenadas rs)
          end), inr tt).
Proof.
  intros Hb Hq Hload. rewrite cabecalho_run in Hload. cbn [fst] in Hload.
  set (s0 := com_eventos sa [EvFileUploader; EvTextInput; EvButton; EvSpinner]).
  destruct (processar_documentos_candidatos
              (documentos_carregados inp) (pergunta_usuario inp) m s0)
    as (sb & rs & Hrun & Hcache & _).
  destruct (processar_documentos_emite
              (documentos_carregados inp) (pergunta_usuario inp) m s0)
    as (evs & Hev & Hall).
  rewrite Hrun in Hev. cbn [fst] in Hev.
  exists sb, rs, evs. split; [exact Hrun|]. split; [exact Hcache|].
  split; [|split; [exact Hall|]].
  - rewrite Hev. subst s0. cbn [com_eventos eventos].
    now rewrite <- app_assoc.
  - unfold script.
    rewrite (bind_ok _ _ _ _ _ (cabecalho_run s)).
    rewrite (bind_ok _ _ _ _ _ Hload).
    rewrite (bind_ok _ _ _ _ _ (widgets_run sa)).
    rewrite Hb, Hq. cbn [negb]. rewrite bind_emitir.
    rewrite com_evento_eventos, com_eventos_app. cbn [app]. fold s0.
    rewrite (bind_ok _ _ _ _ _ Hrun), bind_emitir.
    destruct rs as [|r rs'].
    + now rewrite emitir_run, !com_evento_eventos, com_eventos_app.
    + now rewrite para_cada_mostrar, com_evento_eventos, com_eventos_app.
Qed.

(** A run whose load returned: it returns, the model stays in the cache,
    the pipeline is not asked for again, and no document is touched unless
    the button was pressed, the question is not empty and there is a
    document. *)
Lemma script_retorna (inp : Entrada) (s s1 : Estado) (m : Modelo) :
  carregar_modelo_qa (fst (cabecalho s)) = (s1, inr m) ->
  exists s' evs,
    script inp s = (s', inr tt) /\
    cache s' = Some m /\
    eventos s' = eventos s1 ++ evs /\
    Forall (fun e => ev_carga e = false) evs /\
    (botao inp = false \/ pergunta_usuario inp = "" \/
     documentos_carregados inp = [] ->
     Forall (fun e => ev_normalizer e = false /\ ev_inferencia e = false) evs).
Proof.
  intros Hload.
  pose proof Hload as Hload'. rewrite cabecalho_run in Hload'.
  cbn [fst] in Hload'.
  destruct (carregar_modelo_qa_retorna _ _ _ Hload') as (Hc & _ & _).
  destruct (botao inp) eqn:Hb;
    [destruct (pergunta_usuario inp =? "")%string eqn:Hq|].
  - (* the question is empty *)
    apply String.eqb_eq in Hq.
    exists (com_eventos s1 [EvFileUploader; EvTextInput; EvButton;
                            EvWarning aviso_sem_pergunta]),
           [EvFileUploader; EvTextInput; EvButton;
            EvWarning aviso_sem_pergunta].
    split; [|split; [exact Hc|split; [reflexivity|split]]].
    + unfold script.
      rewrite (bind_ok _ _ _ _ _ (cabecalho_run s)).
      rewrite (bind_ok _ _ _ _ _ Hload').
      rewrite (bind_ok _ _ _ _ _ (widgets_run s1)).
      rewrite Hb, Hq. cbn [String.eqb negb].
      now rewrite emitir_run, com_evento_eventos, com_eventos_app.
    + repeat constructor.
    + intros _. repeat constructor.
  - (* a question was asked *)
    destruct (script_com_pergunta inp s s1 m Hb Hq Hload)
      as (sb & rs & evs & Hrun & Hcache & Hev & Hall & Hscript).
    eexists _, _. split; [exact Hscript|].
    split; [cbn [com_eventos cache]; now rewrite Hcache|].
    split; [cbn [com_eventos eventos]; rewrite Hev, <- !app_assoc;
            reflexivity|].
    assert (Hfim : Forall (fun e => ev_carga e = false)
                     (EvSubheader ::
                      match rs with
                      | [] => [EvInfo info_sem_resposta]
                      | _ :: _ => flat_map linhas (respostas_ordenadas rs)
                      end)).
    { constructor; [reflexivity|]. destruct rs; [repeat constructor|].
      eapply Forall_impl; [|apply linhas_apresentacao].
      intros e He. now destruct e. }
    split.
    + repeat (apply Forall_app; split); try (repeat constructor; fail).
      * eapply coleta_sem_carga, Hall.
      * exact Hfim.
    + intros [Hf|[Hvazia|Hdocs]]; [discriminate| |].
      { rewrite Hvazia in Hq. discriminate. }
      rewrite Hdocs in Hrun. cbn in Hrun. injection Hrun as <- <-.
      cbn in Hev. rewrite <- !app_assoc in Hev.
      apply app_inv_head in Hev. cbn in Hev. injection Hev as <-.
      repeat constructor.
  - (* the button was not pressed *)
    exists (com_eventos s1 [EvFileUploader; EvTextInput; EvButton]),
           [EvFileUploader; EvTextInput; EvButton].
    split; [|split; [exact Hc|split; [reflexivity|split]]].
    + unfold script.
      rewrite (bind_ok _ _ _ _ _ (cabecalho_run s)).
      rewrite (bind_ok _ _ _ _ _ Hload').
      rewrite (bind_ok _ _ _ _ _ (widgets_run s1)).
      now rewrite Hb.
    + repeat constructor.
    + intros _. repeat constructor.
Qed.

(** X9. A load of the model that raises ends the run at line 93: the
    exception leaves the script, nothing is drawn or signalled after the
    header, and nothing is cached, so that the next call of
    [carregar_modelo_qa] asks for the pipeline again. *)
Theorem X9_carga_falhada (inp : Entrada) (s s1 : Estado) (e : Excecao) :
  carregar_modelo_qa (fst (cabecalho s)) = (s1, inl e) ->
  script inp s = (s1, inl e) /\
  cache s1 = None /\
  novos_eventos s s1 =
    [EvSetPageConfig; EvTitle; EvMarkdownIntro; EvPipeline] /\
  novos_eventos s1 (fst (carregar_modelo_qa s1)) = [EvPipeline].
Proof.
  intros Hload. split; [now apply script_falha|].
  rewrite cabecalho_run in Hload. cbn [fst] in Hload.
  destruct (carregar_modelo_qa_falha _ _ _ Hload) as (_ & Hc & _ & Hev).
  split; [exact Hc|]. split.
  - apply novos_eventos_app. rewrite Hev. cbn [com_eventos eventos].
    now rewrite <- app_assoc.
  - apply novos_eventos_app. now apply carregar_modelo_qa_vazio.
Qed.

(** X11. Documents are touched only on request: in a run in which the
    button was not pressed, or the question is empty, or no document was
    uploaded, nothing is read or decoded and the model is run on no image,
    whether or not the load of the model returned. *)
Theorem X11_sem_pedido_nada_e_lido (inp : Entrada) (s : Estado) :
  botao inp = false \/ pergunta_usuario inp = "" \/
  documentos_carregados inp = [] ->
  let evs := novos_eventos s (fst (script inp s)) in
  existsb ev_normalizer evs = false /\ existsb ev_inferencia evs = false.
Proof.
  intros Hsem evs.
  assert (H : Forall (fun e => ev_normalizer e = false /\
                               ev_inferencia e = false) evs).
  { subst evs.
    destruct (carregar_modelo_qa (fst (cabecalho s))) as [s1 [e|m]] eqn:Hload.
    - rewrite (script_falha inp s s1 e Hload). cbn [fst].
      rewrite cabecalho_run in Hload. cbn [fst] in Hload.
      destruct (carregar_modelo_qa_falha _ _ _ Hload) as (_ & _ & _ & Hev).
      cbn [com_eventos eventos] in Hev. rewrite <- app_assoc in Hev.
      rewrite (novos_eventos_app _ _ _ Hev). repeat constructor.
    - destruct (script_retorna inp s s1 m Hload)
        as (s' & evs' & Hrun & _ & Hev & _ & Hnada).
      rewrite Hrun. cbn [fst].
      rewrite cabecalho_run in Hload. cbn [fst] in Hload.
      destruct (carregar_modelo_qa_retorna _ _ _ Hload) as (_ & _ & Hev1).
      cbn [com_eventos eventos cache] in Hev1.
      rewrite Hev1, <- !app_assoc in Hev.
      rewrite (novos_eventos_app _ _ _ Hev).
      repeat (apply Forall_app; split).
      + repeat constructor.
      + destruct (cache s); repeat constructor.
      + now apply Hnada. }
  split; apply existsb_Forall_false; eapply Forall_impl; try exact H;
    now intros e [H1 H2].
Qed.

(** X12. A question asked with no document uploaded is answered twice:
    by the warning of the collection step, and then, under the subheader of
    the results, by the message that no answer was found. *)
Theorem X12_pergunta_sem_documentos (inp : Entrada) (s s1 : Estado)
        (m : Modelo) :
  botao inp = true -> (pergunta_usuario inp =? "")%string = false ->
  documentos_carregados inp = [] ->
  carregar_modelo_qa (fst (cabecalho s)) = (s1, inr m) ->
  script inp s =
    (mkEstado (mundo s1) (cache s1)
       (eventos s1 ++ [EvFileUploader; EvTextInput; EvButton; EvSpinner;
                       EvWarning aviso_sem_documentos; EvSubheader;
                       EvInfo info_sem_resposta])
       [],
     inr tt).
Proof.
  intros Hb Hq Hd Hload.
  destruct (script_com_pergunta inp s s1 m Hb Hq Hload)
    as (sb & rs & evs & Hrun & _ & _ & _ & Hscript).
  rewrite Hscript. rewrite Hd in Hrun. cbn in Hrun.
  injection Hrun as <- <-. unfold com_eventos. cbn.
  now rewrite <- !app_assoc.
Qed.

End Execucao.

(** * The further properties on the small worlds *)

Section ExemplosDeExecucao.

Import Exemplo.

(** [foto.png], second of two documents. *)
Lemma X4_imagem_respondida_witness :
  e_pdf (name foto) = false /\ e_imagem (name foto) = true /\
  novas carregado (fst (processar_documento 2 "q" 0 (1, foto) carregado)) =
    [mkResposta "foto.png" PaginaNA "beta" 0.5%float].
Proof.
  split; [reflexivity|]. split; [reflexivity|].
  rewrite (@X4_imagem_respondida bibliotecas 2 "q" 0 1 foto carregado 1 1 "b"
             [mkBruto "beta" 0.5%float; mkBruto "limiar" 0.01%float]
             eq_refl eq_refl eq_refl eq_refl).
  reflexivity.
Defined.

(** The first page of [relatorio.pdf]. *)
Lemma X5_pagina_respondida_witness :
  novas carregado
        (fst (processar_pagina "relatorio.pdf" "q" 0 (0, "a") carregado)) =
    [mkResposta "relatorio.pdf" (PaginaNum 1) "alfa" 0.9%float].
Proof.
  exact (f_equal (fun r => novas carregado (fst r))
           (@X5_pagina_respondida bibliotecas "relatorio.pdf" "q" 0 0 "a"
              carregado 1 1 1 1 "a" "a" "a"
              [mkBruto "alfa" 0.9%float; mkBruto "ruido" 0.005%float]
              eq_refl eq_refl eq_refl eq_refl)).
Defined.

(** A PDF whose stream is empty opens with no page. *)
Lemma X6_pdf_sem_paginas_witness :
  processar_documento 1 "q" 0 (0, mkDocumento "vazio.pdf" "") carregado =
    (com_eventos carregado
       [EvProgress 1 1 "Analisando: vazio.pdf"; EvRead "vazio.pdf"; EvFitzOpen],
     inr tt).
Proof.
  exact (@X6_pdf_sem_paginas bibliotecas 1 "q" 0 0
           (mkDocumento "vazio.pdf" "") carregado 1 1 ""
           eq_refl eq_refl eq_refl).
Defined.

(** The first run of a process whose first load fails. *)
Lemma X9_carga_falhada_witness :
  @script ExemploFalha.bibliotecas (mkEntrada [relatorio] "q" true)
          ExemploFalha.inicio =
    (ExemploFalha.falhou, inl "connection error") /\
  @cache ExemploFalha.bibliotecas ExemploFalha.falhou = None.
Proof.
  destruct (@X9_carga_falhada ExemploFalha.bibliotecas
              (mkEntrada [relatorio] "q" true)
              ExemploFalha.inicio ExemploFalha.falhou "connection error"
              eq_refl) as (H1 & H2 & _).
  split; assumption.
Defined.

(** Documents and a question, but the button was not pressed. *)
Lemma X11_sem_pedido_nada_e_lido_witness :
  let inp := mkEntrada [relatorio; foto] "q" false in
  botao inp = false /\
  existsb ev_normalizer (novos_eventos inicio (fst (script inp inicio)))
    = false /\
  existsb ev_inferencia (novos_eventos inicio (fst (script inp inicio)))
    = false.
Proof.
  cbv zeta. split; [reflexivity|].
  exact (@X11_sem_pedido_nada_e_lido bibliotecas
           (mkEntrada [relatorio; foto] "q" false) inicio
           (or_introl eq_refl)).
Defined.

(** A question in a fresh process with nothing uploaded. *)
Lemma X12_pergunta_sem_documentos_witness :
  script (mkEntrada [] "q" true) inicio =
    (com_eventos pronto
       [EvFileUploader; EvTextInput; EvButton; EvSpinner;
        EvWarning aviso_sem_documentos; EvSubheader;
        EvInfo info_sem_resposta],
     inr tt).
Proof.
  exact (@X12_pergunta_sem_documentos bibliotecas (mkEntrada [] "q" true)
           inicio pronto 0 eq_refl eq_refl eq_refl eq_refl).
Defined.

End ExemplosDeExecucao.

(** * The handler of line 80 *)

Section Interrupcao.

Context {B : Bibliotecas}.

Variable ex : Excecao -> bool.

Local Open Scope py_scope.

(** When every raise derives from [Exception], the loop body, the
    collection step and the script are the ones above. *)
Lemma so_excecoes :
  ExceptException.processar_documento (fun _ => true) = processar_documento /\
  ExceptException.processar_documentos (fun _ => true) = processar_documentos /\
  ExceptException.script (fun _ => true) = script.
Proof. repeat split. Qed.

(** The three ways out of the body of the loop. *)
Lemma processar_documento_casos (total : nat) (q : string) (m : Modelo)
      (id : nat * Documento) (s : Estado) :
  ExceptException.processar_documento ex total q m id s =
  match tentativa total q m id s with
  | (s1, inl e) =>
      if ex e then (com_evento s1 (EvError (mensagem_erro (snd id) e)), inr tt)
      else (s1, inl e)
  | (s1, inr a) => (s1, inr a)
  end.
Proof.
  unfold ExceptException.processar_documento, ExceptException.tentar.
  destruct (tentativa total q m id s) as [s1 [e|a]]; [|reflexivity].
  now destruct (ex e).
Qed.

(** What leaves the body of the loop does not derive from [Exception], and
    is what was raised under [try], in the state it left. *)
Lemma processar_documento_levanta (total : nat) (q : string) (m : Modelo)
      (id : nat * Documento) (s s1 : Estado) (e : Excecao) :
  ExceptException.processar_documento ex total q m id s = (s1, inl e) ->
  ex e = false /\ tentativa total q m id s = (s1, inl e).
Proof.
  rewrite processar_documento_casos.
  destruct (tentativa total q m id s) as [s' [e'|a]]; [|discriminate].
  destruct (ex e') eqn:E; [discriminate|]. now intros [= <- <-].
Qed.

Lemma para_cada_app_falha {A} (f : A -> M unit) (l1 l2 : list A)
      (s s1 : Estado) (e : Excecao) :
  para_cada f l1 s = (s1, inl e) -> para_cada f (l1 ++ l2) s = (s1, inl e).
Proof.
  revert s. induction l1 as [|x l1 IH]; intros s; cbn [para_cada app].
  - discriminate.
  - unfold bind. destruct (f x s) as [s' [e'|[]]]; [trivial|]. apply IH.
Qed.

Lemma contribuicoes_app_retorna {A} (f : A -> M unit) (l1 l2 : list A)
      (s s1 : Estado) :
  para_cada f l1 s = (s1, inr tt) ->
  contribuicoes f (l1 ++ l2) s =
  contribuicoes f l1 s ++ contribuicoes f l2 s1.
Proof.
  revert s. induction l1 as [|x l1 IH]; intros s;
    cbn [para_cada app contribuicoes].
  - unfold ret. now intros [= ->].
  - unfold bind. destruct (f x s) as [s' [e'|[]]]; [discriminate|].
    intros H. cbn [app]. now rewrite (IH _ H).
Qed.

Lemma contribuicoes_app_falha {A} (f : A -> M unit) (l1 l2 : list A)
      (s s1 : Estado) (e : Excecao) :
  para_cada f l1 s = (s1, inl e) ->
  contribuicoes f (l1 ++ l2) s = contribuicoes f l1 s.
Proof.
  revert s. induction l1 as [|x l1 IH]; intros s;
    cbn [para_cada app contribuicoes].
  - discriminate.
  - unfold bind. destruct (f x s) as [s' [e'|[]]]; [reflexivity|].
    intros H. now rewrite (IH _ H).
Qed.

(** What leaves the loop over the documents does not derive from
    [Exception]. *)
Lemma laco_levanta (total : nat) (q : string) (m : Modelo)
      (l : list (nat * Documento)) (s s1 : Estado) (e : Excecao) :
  para_cada (ExceptException.processar_documento ex total q m) l s
    = (s1, inl e) ->
  ex e = false.
Proof.
  revert s. induction l as [|x l IH]; intros s; cbn [para_cada].
  - discriminate.
  - unfold bind.
    destruct (ExceptException.processar_documento ex total q m x s)
      as [s' [e'|[]]] eqn:E.
    + intros [= <- <-]. now apply processar_documento_levanta in E.
    + apply IH.
Qed.

(** X3. A batch can be cut anywhere, with the handler of line 80.  When
    the loop over [d1] returns, the loop over [d1 ++ d2] is the loop over
    [d2] run from the state the first left and counted from where it
    stopped, and the contributions of the documents are those of [d1]
    followed by those of [d2], whatever was caught among [d1].  When the
    loop over [d1] is left by a raise, that raise does not derive from
    [Exception], it leaves the loop over [d1 ++ d2] in the same state, and
    no document of [d2] is handled.  When every raise derives from
    [Exception] the loop returns. *)
Theorem X3_lote_em_duas_partes (total : nat) (q : string) (m : Modelo)
        (d1 d2 : list Documento) (j : nat) (s : Estado) :
  let f := ExceptException.processar_documento ex total q m in
  (forall s1, para_cada f (enumerate j d1) s = (s1, inr tt) ->
     para_cada f (enumerate j (d1 ++ d2)) s =
       para_cada f (enumerate (j + List.length d1) d2) s1 /\
     contribuicoes f (enumerate j (d1 ++ d2)) s =
       contribuicoes f (enumerate j d1) s ++
       contribuicoes f (enumerate (j + List.length d1) d2) s1) /\
  (forall s1 e, para_cada f (enumerate j d1) s = (s1, inl e) ->
     ex e = false /\
     para_cada f (enumerate j (d1 ++ d2)) s = (s1, inl e) /\
     contribuicoes f (enumerate j (d1 ++ d2)) s =
       contribuicoes f (enumerate j d1) s) /\
  ((forall e, ex e = true) ->
   snd (para_cada f (enumerate j (d1 ++ d2)) s) = inr tt).
Proof.
  intros f. rewrite enumerate_app. split; [|split].
  - intros s1 H. split.
    + now apply para_cada_app.
    + now apply contribuicoes_app_retorna.
  - intros s1 e H. split; [|split].
    + eapply laco_levanta. exact H.
    + now apply para_cada_app_falha.
    + eapply contribuicoes_app_falha. exact H.
  - intros Hex.
    destruct (para_cada f (enumerate j d1 ++
                           enumerate (j + List.length d1) d2) s)
      as [s1 [e|[]]] eqn:E; [|reflexivity].
    apply laco_levanta in E. rewrite Hex in E. discriminate.
Qed.

(** X8. What ends a collection besides its last document: a raise under
    [try] that does not derive from [Exception].  When the documents before
    [d] were handled and what stands under [try] raises such an [e] for [d],
    [e] leaves [processar_documentos] in the state the raise left: the
    candidates collected so far stay in the list and are not returned, no
    error is reported for [d], the documents after [d] are not handled and
    the progress bar is not cleared. *)
Theorem X8_interrupcao (pre rest : list Documento) (d : Documento)
        (q : string) (m : Modelo) (s sa s1 : Estado) (e : Excecao) :
  let docs := pre ++ d :: rest in
  para_cada (ExceptException.processar_documento ex (List.length docs) q m)
            (enumerate 0 pre) (inicio_do_laco s) = (sa, inr tt) ->
  tentativa (List.length docs) q m (List.length pre, d) sa = (s1, inl e) ->
  ex e = false ->
  ExceptException.processar_documentos ex docs q m s = (s1, inl e) /\
  existsb ev_aviso (novos_eventos sa s1) = false /\
  ~ In EvProgressEmpty (novos_eventos sa s1).
Proof.
  intros docs Hpre Hrun Hex.
  destruct (tentativa_spec (List.length docs) q m (List.length pre) d sa)
    as (b & evs & Hef & _ & He & _).
  rewrite Hrun in Hef. cbn [fst] in Hef.
  rewrite (Efeito_novos_eventos _ _ _ _ Hef).
  assert (Hramo : forall P : Evento -> Prop,
             P (EvRead (name d)) -> P (EvImageOpen (name d)) ->
             Forall P (if e_pdf (name d) then [EvRead (name d)]
                       else if e_imagem (name d) then [EvImageOpen (name d)]
                            else [])).
  { intros P H1 H2. destruct (e_pdf (name d)); [now repeat constructor|].
    destruct (e_imagem (name d)); now repeat constructor. }
  split; [|split].
  - unfold ExceptException.processar_documentos.
    assert (Hdocs : docs = pre ++ d :: rest) by reflexivity.
    clearbody docs. destruct docs as [|d0 docs'].
    { destruct pre; discriminate. }
    cbv beta iota. set (docs := d0 :: docs') in *.
    unfold bind at 1. cbn [nova_lista]. rewrite bind_emitir.
    change (com_evento (mkEstado _ _ _ _) _) with (inicio_do_laco s).
    unfold bind at 1.
    replace (para_cada
               (ExceptException.processar_documento ex (List.length docs) q m)
               (enumerate 0 docs) (inicio_do_laco s))
      with (s1, @inl Excecao unit e); [reflexivity|].
    symmetry. rewrite Hdocs at 2. rewrite enumerate_app.
    rewrite (para_cada_app _ _ _ _ _ Hpre).
    cbn [enumerate para_cada]. unfold bind.
    rewrite processar_documento_casos. cbn [Nat.add].
    now rewrite Hrun, Hex.
  - apply existsb_Forall_false. constructor; [reflexivity|].
    apply Forall_app. split; [now apply Hramo|].
    eapply Forall_impl; [|exact He]. intros ev Hev. now destruct ev.
  - intros [Hin|Hin]; [discriminate|].
    apply in_app_or in Hin as [Hin|Hin].
    + pose proof (Hramo (fun ev => ev <> EvProgressEmpty)) as H.
      rewrite Forall_forall in H. now apply (H ltac:(discriminate)
                                               ltac:(discriminate) _ Hin).
    + now apply (In_ev_paginas _ _ He) in Hin.
Qed.

End Interrupcao.

(** ** The cache and the log under the handler of line 80 *)

Section CacheELog.

Context {B : Bibliotecas}.

Variable ex : Excecao -> bool.

Local Open Scope py_scope.

Lemma conserva_ret {A} (a : A) : conserva_cache (ret a).
Proof. intros s. reflexivity. Qed.

Lemma conserva_bind {A C} (mm : M A) (f : A -> M C) :
  conserva_cache mm -> (forall a, conserva_cache (f a)) ->
  conserva_cache (bind mm f).
Proof.
  intros Hm Hf s. specialize (Hm s). unfold bind.
  destruct (mm s) as [s1 [e|a]]; cbn [fst] in *; [exact Hm|].
  now rewrite Hf.
Qed.

Lemma conserva_tentar {A} (mm : M A) (h : Excecao -> M A) :
  conserva_cache mm -> (forall e, conserva_cache (h e)) ->
  conserva_cache (ExceptException.tentar ex mm h).
Proof.
  intros Hm Hh s. specialize (Hm s). unfold ExceptException.tentar.
  destruct (mm s) as [s1 [e|a]]; cbn [fst] in *; [|exact Hm].
  destruct (ex e); [|exact Hm]. now rewrite Hh.
Qed.

Lemma conserva_emitir (ev : Evento) : conserva_cache (emitir ev).
Proof. intros s. reflexivity. Qed.

Lemma conserva_externo {A} (ev : Evento)
      (f : Mundo -> Mundo * (Excecao + A)) :
  conserva_cache (externo ev f).
Proof.
  intros s. unfold externo. now destruct (f (mundo s)) as [w r].
Qed.

Lemma conserva_append_resposta (r : Resposta) :
  conserva_cache (append_resposta r).
Proof. intros s. reflexivity. Qed.

Lemma conserva_para_cada {A} (f : A -> M unit) (l : list A) :
  (forall x, conserva_cache (f x)) -> conserva_cache (para_cada f l).
Proof.
  intros H. induction l as [|x l IH]; cbn [para_cada].
  - apply conserva_ret.
  - apply conserva_bind; [apply H|]. intros _. exact IH.
Qed.

Lemma conserva_processar_pagina (nome q : string) (m : Modelo)
      (np : nat * PaginaPDF) :
  conserva_cache (processar_pagina nome q m np).
Proof.
  destruct np as [k p]. unfold processar_pagina.
  repeat (apply conserva_bind; [apply conserva_externo|]; intros ?).
  apply conserva_para_cada. intros res. apply conserva_append_resposta.
Qed.

Lemma conserva_tentativa (total : nat) (q : string) (m : Modelo)
      (id : nat * Documento) :
  conserva_cache (tentativa total q m id).
Proof.
  destruct id as [i d]. unfold tentativa.
  apply conserva_bind; [apply conserva_emitir|]. intros _.
  destruct (e_pdf (name d)); [|destruct (e_imagem (name d))].
  - unfold ramo_pdf.
    repeat (apply conserva_bind; [apply conserva_externo|]; intros ?).
    apply conserva_para_cada. intros np. apply conserva_processar_pagina.
  - unfold ramo_imagem.
    repeat (apply conserva_bind; [apply conserva_externo|]; intros ?).
    apply conserva_para_cada. intros res. apply conserva_append_resposta.
  - apply conserva_ret.
Qed.

Lemma conserva_processar_documentos (docs : list Documento) (q : string)
      (m : Modelo) :
  conserva_cache (ExceptException.processar_documentos ex docs q m).
Proof.
  unfold ExceptException.processar_documentos.
  apply conserva_bind; [intros s; reflexivity|]. intros _.
  destruct docs as [|d0 docs'].
  - apply conserva_bind; [apply conserva_emitir|]. intros _.
    apply conserva_ret.
  - apply conserva_bind; [apply conserva_emitir|]. intros _.
    apply conserva_bind.
    + apply conserva_para_cada. intros id.
      unfold ExceptException.processar_documento.
      apply conserva_tentar; [apply conserva_tentativa|].
      intros e. apply conserva_emitir.
    + intros _. apply conserva_bind; [apply conserva_emitir|]. intros _.
      intros s. reflexivity.
Qed.

Lemma so_emite_impl {A} (P Q : Evento -> Prop) (mm : M A) :
  (forall e, P e -> Q e) -> so_emite P mm -> so_emite Q mm.
Proof.
  intros H Hm s. destruct (Hm s) as (evs & Hev & F). exists evs.
  split; [exact Hev|]. eapply Forall_impl; [|exact F]. exact H.
Qed.

Lemma so_emite_tentar_linha80 {A} (P : Evento -> Prop) (mm : M A)
      (h : Excecao -> M A) :
  so_emite P mm -> (forall e, so_emite P (h e)) ->
  so_emite P (ExceptException.tentar ex mm h).
Proof.
  intros Hm Hh s. destruct (Hm s) as (e1 & H1 & F1).
  unfold ExceptException.tentar.
  destruct (mm s) as [s1 [e|a]]; cbn [fst] in *; [|now exists e1].
  destruct (ex e); [|now exists e1].
  destruct (Hh e s1) as (e2 & H2 & F2). exists (e1 ++ e2).
  rewrite H2, H1, app_assoc. split; [reflexivity|].
  apply Forall_app. now split.
Qed.

(** What stands under [try] for a document of the batch logs events of
    the batch. *)
Lemma tentativa_emite (docs : list Documento) (q : string) (m : Modelo)
      (i : nat) (d : Documento) :
  In d docs -> i < List.length docs ->
  so_emite (evento_da_coleta docs q)
           (tentativa (List.length docs) q m (i, d)).
Proof.
  intros Hd Hi. unfold tentativa. apply so_emite_bind.
  - apply so_emite_emitir. cbn. split; [lia|]. split; [reflexivity|].
    now exists d.
  - intros _. destruct (e_pdf (name d)) eqn:Epdf;
      [|destruct (e_imagem (name d)) eqn:Eimg].
    + unfold ramo_pdf. apply so_emite_bind.
      { apply so_emite_externo. cbn. now exists d. }
      intros bytes_pdf.
      apply so_emite_bind; [now apply so_emite_externo|]. intros doc_pdf.
      apply so_emite_para_cada. intros np _. apply processar_pagina_emite.
    + unfold ramo_imagem. apply so_emite_bind.
      { apply so_emite_externo. cbn. now exists d. }
      intros imagem.
      apply so_emite_bind; [now apply so_emite_externo|]. intros resultado.
      apply so_emite_para_cada. intros res _. apply so_emite_append_resposta.
    + apply so_emite_ret.
Qed.

Lemma processar_documentos_emite_linha80 (docs : list Documento) (q : string)
      (m : Modelo) :
  so_emite (evento_da_coleta docs q)
           (ExceptException.processar_documentos ex docs q m).
Proof.
  unfold ExceptException.processar_documentos.
  apply so_emite_bind; [apply so_emite_nova_lista|]. intros _.
  destruct docs as [|d0 docs'].
  - apply so_emite_bind; [now apply so_emite_emitir|]. intros _.
    apply so_emite_ret.
  - set (docs := d0 :: docs').
    apply so_emite_bind; [now apply so_emite_emitir|]. intros _.
    apply so_emite_bind.
    + apply so_emite_para_cada. intros [i d] Hin.
      apply In_enumerate in Hin as [Hi Hd].
      unfold ExceptException.processar_documento.
      apply so_emite_tentar_linha80.
      * apply tentativa_emite; [exact Hd|lia].
      * intros e. apply so_emite_emitir. cbn. now exists d, e.
    + intros _. apply so_emite_bind; [now apply so_emite_emitir|]. intros _.
      apply so_emite_ler_lista.
Qed.

Lemma script_linha80_falha (inp : Entrada) (s s1 : Estado) (e : Excecao) :
  carregar_modelo_qa (fst (cabecalho s)) = (s1, inl e) ->
  ExceptException.script ex inp s = (s1, inl e).
Proof.
  intros Hload. rewrite cabecalho_run in Hload. cbn [fst] in Hload.
  unfold ExceptException.script.
  rewrite (bind_ok _ _ _ _ _ (cabecalho_run s)).
  unfold bind at 1. now rewrite Hload.
Qed.

(** A run whose load returned is what follows the load, run from the
    state the load left; what follows keeps the cache and does not ask for
    the pipeline, whether it returns or is left by a raise. *)
Lemma script_linha80_carregado (inp : Entrada) (s sa : Estado) (m : Modelo) :
  carregar_modelo_qa (fst (cabecalho s)) = (sa, inr m) ->
  exists k : M unit,
    ExceptException.script ex inp s = k sa /\
    conserva_cache k /\
    so_emite (fun e => ev_carga e = false) k.
Proof.
  intros Hload. rewrite cabecalho_run in Hload. cbn [fst] in Hload.
  unfold ExceptException.script.
  rewrite (bind_ok _ _ _ _ _ (cabecalho_run s)).
  rewrite (bind_ok _ _ _ _ _ Hload).
  eexists. split; [reflexivity|]. split.
  - apply conserva_bind.
    { unfold widgets.
      repeat (apply conserva_bind; [apply conserva_emitir|]; intros ?).
      apply conserva_emitir. }
    intros _. destruct (botao inp); [|apply conserva_ret].
    destruct (negb (pergunta_usuario inp =? ""));
      [|apply conserva_emitir].
    apply conserva_bind; [apply conserva_emitir|]. intros _.
    apply conserva_bind; [apply conserva_processar_documentos|].
    intros rs. apply conserva_bind; [apply conserva_emitir|]. intros _.
    destruct rs; [apply conserva_emitir|].
    apply conserva_para_cada. intros res. unfold mostrar.
    repeat (apply conserva_bind; [apply conserva_emitir|]; intros ?).
    apply conserva_emitir.
  - apply so_emite_bind.
    { unfold widgets.
      repeat (apply so_emite_bind; [now apply so_emite_emitir|]; intros ?).
      now apply so_emite_emitir. }
    intros _. destruct (botao inp); [|apply so_emite_ret].
    destruct (negb (pergunta_usuario inp =? ""));
      [|now apply so_emite_emitir].
    apply so_emite_bind; [now apply so_emite_emitir|]. intros _.
    apply so_emite_bind.
    { eapply so_emite_impl; [|apply processar_documentos_emite_linha80].
      intros e He. now destruct e. }
    intros rs. apply so_emite_bind; [now apply so_emite_emitir|]. intros _.
    destruct rs; [now apply so_emite_emitir|].
    apply so_emite_para_cada. intros res _. unfold mostrar.
    repeat (apply so_emite_bind; [now apply so_emite_emitir|]; intros ?).
    now apply so_emite_emitir.
Qed.

(** X10. The model is loaded once for the process, not once for each
    run, with the handler of line 80: after a run of the script that
    returned, the cache holds a model, and every later run, whatever the
    user gives it and whether it returns or is left by a raise, keeps that
    model in the cache and does not ask for the pipeline. *)
Theorem X10_uma_carga_por_processo (inp1 inp2 : Entrada) (s s1 : Estado) :
  ExceptException.script ex inp1 s = (s1, inr tt) ->
  exists m,
    cache s1 = Some m /\
    cache (fst (ExceptException.script ex inp2 s1)) = Some m /\
    existsb ev_carga
            (novos_eventos s1 (fst (ExceptException.script ex inp2 s1)))
      = false.
Proof.
  intros Hrun1.
  destruct (carregar_modelo_qa (fst (cabecalho s))) as [sa [e|m]] eqn:Hload1.
  { rewrite (script_linha80_falha inp1 s sa e Hload1) in Hrun1.
    discriminate. }
  destruct (script_linha80_carregado inp1 s sa m Hload1) as (k1 & Hk1 & Hc1 & _).
  pose proof Hload1 as Hload1'. rewrite cabecalho_run in Hload1'.
  cbn [fst] in Hload1'.
  destruct (carregar_modelo_qa_retorna _ _ _ Hload1') as (Hsa & _ & _).
  assert (Hs1 : cache s1 = Some m).
  { rewrite <- Hsa, <- (Hc1 sa), <- Hk1, Hrun1. reflexivity. }
  exists m. split; [exact Hs1|].
  assert (Hload2 : carregar_modelo_qa (fst (cabecalho s1)) =
                   (fst (cabecalho s1), inr m)).
  { apply carregar_modelo_qa_cache. now rewrite cabecalho_run. }
  destruct (script_linha80_carregado inp2 s1 _ m Hload2)
    as (k2 & Hk2 & Hc2 & He2).
  rewrite Hk2. split.
  - rewrite Hc2. now rewrite cabecalho_run.
  - destruct (He2 (fst (cabecalho s1))) as (evs & Hev & Hall).
    rewrite cabecalho_run in Hev. cbn [fst com_eventos eventos] in Hev.
    rewrite cabecalho_run. cbn [fst].
    rewrite <- app_assoc in Hev.
    rewrite (novos_eventos_app _ _ _ Hev).
    apply existsb_Forall_false. repeat constructor. exact Hall.
Qed.

End CacheELog.

(** * The handler of line 80 on the small worlds *)

Section ExemplosDaLinha80.

(** Three documents; the model is interrupted on the second page of the
    second one: the candidates of [foto.png] and of the first page of
    [longo.pdf] are in the list, [SCAN.PDF] is not handled, and nothing is
    returned. *)
Lemma X8_interrupcao_witness :
  let B := ExemploInterrupcao.bibliotecas in
  let ex := ExemploInterrupcao.e_exception in
  let docs := [Exemplo.foto] ++ ExemploInterrupcao.longo :: [Exemplo.scan] in
  let sa :=
    fst (para_cada (@ExceptException.processar_documento B ex 3 "q" 0%nat)
                   (enumerate 0 [Exemplo.foto])
                   (inicio_do_laco ExemploInterrupcao.carregado)) in
  let s1 := fst (@tentativa B 3 "q" 0%nat (1, ExemploInterrupcao.longo) sa) in
  ex "KeyboardInterrupt" = false /\
  @ExceptException.processar_documentos B ex docs "q" 0%nat
    ExemploInterrupcao.carregado = (s1, inl "KeyboardInterrupt") /\
  respostas_encontradas s1 =
    [mkResposta "foto.png" PaginaNA "beta" 0.5%float;
     mkResposta "longo.pdf" (PaginaNum 1) "alfa" 0.9%float].
Proof.
  cbv zeta. split; [reflexivity|]. split; [|vm_compute; reflexivity].
  refine (proj1 (@X8_interrupcao ExemploInterrupcao.bibliotecas
                   ExemploInterrupcao.e_exception
                   [Exemplo.foto] [Exemplo.scan] ExemploInterrupcao.longo
                   "q" 0%nat ExemploInterrupcao.carregado _ _
                   "KeyboardInterrupt" _ _ eq_refl)).
  - vm_compute. reflexivity.
  - vm_compute. reflexivity.
Defined.

(** Two runs of a fresh process. *)
Lemma X10_uma_carga_por_processo_witness :
  let ex := ExemploInterrupcao.e_exception in
  let inp1 := mkEntrada [Exemplo.foto] "q" true in
  let inp2 := mkEntrada [Exemplo.relatorio; Exemplo.scan] "outra" true in
  let s1 := fst (ExceptException.script ex inp1 Exemplo.inicio) in
  ExceptException.script ex inp1 Exemplo.inicio = (s1, inr tt) /\
  exists m,
    cache s1 = Some m /\
    cache (fst (ExceptException.script ex inp2 s1)) = Some m /\
    existsb ev_carga
            (novos_eventos s1 (fst (ExceptException.script ex inp2 s1)))
      = false.
Proof.
  cbv zeta.
  assert (H : ExceptException.script ExemploInterrupcao.e_exception
                (mkEntrada [Exemplo.foto] "q" true) Exemplo.inicio =
              (fst (ExceptException.script ExemploInterrupcao.e_exception
                      (mkEntrada [Exemplo.foto] "q" true) Exemplo.inicio),
               inr tt))
    by (vm_compute; reflexivity).
  split; [exact H|].
  exact (@X10_uma_carga_por_processo Exemplo.bibliotecas
           ExemploInterrupcao.e_exception
           (mkEntrada [Exemplo.foto] "q" true)
           (mkEntrada [Exemplo.relatorio; Exemplo.scan] "outra" true)
           Exemplo.inicio _ H).
Defined.

End ExemplosDaLinha80.
